(** * Eye_tracking: the EyeTracker core of [src/eye_tracker.py]

    A shallow embedding of [EyeTracker]: the openness ratio and gaze
    computations, the gesture state machine [detect_gesture], the bounded
    gaze history maintained by [process_frame], and [reset_metrics].

    Python floats are IEEE 754 binary64 values; they are modelled by Rocq's
    primitive floats, which are the same format with the same rounding, so
    every comparison and subtraction below evaluates as it does in CPython.
    Python integers are unbounded and are modelled by [Z]. *)

From Stdlib Require Import ZArith List Bool Lia Floats.
From Stdlib Require String.
Import ListNotations.

Set Warnings "-inexact-float".

(** ** Python values and the exceptions the modelled code can raise *)

Module Py.

(** [CvError] is OpenCV's [cv2.error].  [NumpyOutOfRange] marks numpy
    arithmetic outside the range this development follows: integers
    beyond 64 bits, or differences whose squares are not exact in binary64.
    The source raises [TypeError], promotes or rounds there, depending on
    the magnitudes and on the numpy build, so the model gives no value; the
    properties of the distances below assume coordinates inside the range,
    which every pixel coordinate is. *)
Inductive exn : Set :=
| ValueError
| IndexError
| OverflowError
| ZeroDivisionError
| CvError
| NumpyOutOfRange.

Inductive result (A : Type) : Type :=
| Ok (a : A)
| Raise (e : exn).

Arguments Ok {A} a.
Arguments Raise {A} e.

Definition bind {A B : Type} (m : result A) (k : A -> result B) : result B :=
  match m with
  | Ok a => k a
  | Raise e => Raise e
  end.

(** [for x in xs: ys.append(f(x))], stopping at the first exception. *)
Fixpoint mapM {A B : Type} (f : A -> result B) (xs : list A) : result (list B) :=
  match xs with
  | [] => Ok []
  | x :: xs' =>
      bind (f x) (fun y => bind (mapM f xs') (fun ys => Ok (y :: ys)))
  end.

(** [len(l)] *)
Definition len {A : Type} (l : list A) : Z := Z.of_nat (length l).

(** [l[i]]: a negative index counts from the end, anything outside
    [-len(l) .. len(l)-1] raises [IndexError]. *)
Definition index {A : Type} (l : list A) (i : Z) : result A :=
  let j := (if i <? 0 then i + len l else i)%Z in
  if (j <? 0)%Z then Raise IndexError
  else match nth_error l (Z.to_nat j) with
       | Some a => Ok a
       | None => Raise IndexError
       end.

(** [max(l)] on a list of integers; [ValueError] on the empty list. *)
Definition max (l : list Z) : result Z :=
  match l with
  | [] => Raise ValueError
  | x :: xs => Ok (fold_left Z.max xs x)
  end.

(** Integer to binary64, round to nearest even. *)
Definition Z2SF (z : Z) : spec_float := binary_normalize prec emax z 0 false.

Definition Z2F (z : Z) : float := SF2Prim (Z2SF z).

(** [float(n)] as used by mixed [float * int] arithmetic: [OverflowError]
    when the integer is beyond the binary64 range. *)
Definition float_of_int (z : Z) : result float :=
  match Z2SF z with
  | S754_infinity _ => Raise OverflowError
  | sf => Ok (SF2Prim sf)
  end.

(** [int(x)]: truncation toward zero; [ValueError] on NaN and
    [OverflowError] on an infinity. *)
Definition int (x : float) : result Z :=
  match Prim2SF x with
  | S754_zero _ => Ok 0%Z
  | S754_infinity _ => Raise OverflowError
  | S754_nan => Raise ValueError
  | S754_finite s m e =>
      let v := match e with
               | Zneg k => Z.shiftr (Zpos m) (Zpos k)
               | _ => Z.shiftl (Zpos m) e
               end in
      Ok (if s then (- v)%Z else v)
  end.

(** [a / b] on two integers (true division), as CPython's
    [long_true_divide]: [ZeroDivisionError] for a zero divisor; when both
    operands are below 2^53 in magnitude, the binary64 quotient of the two
    (exact) conversions; otherwise the exact quotient rounded once to
    nearest even, [OverflowError] when it is beyond the binary64 range. *)
Definition truediv (a b : Z) : result float :=
  if (b =? 0)%Z then Raise ZeroDivisionError
  else if (Z.abs a <? 2 ^ 53)%Z && (Z.abs b <? 2 ^ 53)%Z
       then Ok (Z2F a / Z2F b)%float
       else
         let '(q, e, l) := SFdiv_core_binary prec emax (Z.abs a) 0 (Z.abs b) 0 in
         match binary_round_aux prec emax (xorb (a <? 0)%Z (b <? 0)%Z) q e l with
         | S754_infinity _ => Raise OverflowError
         | sf => Ok (SF2Prim sf)
         end.

(** The range of a numpy [int64], and its wrap-around. *)
Definition in_int64 (z : Z) : bool := ((- 2 ^ 63 <=? z) && (z <? 2 ^ 63))%Z.

Definition wrap64 (z : Z) : Z := ((z + 2 ^ 63) mod 2 ^ 64 - 2 ^ 63)%Z.

End Py.

Import Py.

Declare Scope py_scope.
Notation "x <- m ;; k" := (Py.bind m (fun x => k))
  (at level 61, m at next level, right associativity) : py_scope.
Notation "' p <- m ;; k" := (Py.bind m (fun p => k))
  (at level 61, p pattern, m at next level, right associativity) : py_scope.
Open Scope py_scope.

(** ** Data model *)

(** [class GestureType(Enum)] *)
Inductive GestureType : Set :=
| NONE
| LEFT_WINK
| RIGHT_WINK
| DOUBLE_BLINK
| SUSTAINED_GAZE.

Definition GestureType_eq_dec (a b : GestureType) : {a = b} + {a <> b}.
Proof. decide equality. Defined.

Definition point : Set := (Z * Z)%type.
Definition gaze : Set := (float * float)%type.

(** [@dataclass class EyeData] *)
Record EyeData : Set := {
  left_ear : float;
  right_ear : float;
  left_gaze : gaze;
  right_gaze : gaze;
  combined_gaze : gaze;
  is_blinking : bool;
  gesture : GestureType;
  landmarks : list point
}.

(** The attributes of an [EyeTracker] instance that the modelled methods
    read or write.  The attributes initialised to the integer [0] and later
    assigned floats are floats here ([0] and [0.0] compare equal and
    subtract alike). *)
Record EyeTracker : Set := {
  ear_threshold : float;
  wink_duration : float * float;
  left_eye_closed_time : float;
  right_eye_closed_time : float;
  last_blink_time : float;
  blink_count : Z;
  gaze_history : list gaze;
  gaze_history_max : Z;
  frame_width : Z;
  frame_height : Z
}.

Definition LEFT_EYE_INDICES : list Z :=
  [33; 7; 163; 144; 145; 153; 154; 155; 133; 173; 157; 158; 159; 160; 161; 246]%Z.
Definition RIGHT_EYE_INDICES : list Z :=
  [362; 382; 381; 380; 374; 373; 390; 249; 263; 466; 388; 387; 386; 385; 384; 398]%Z.
Definition LEFT_EAR_INDICES : list Z := [33; 160; 158; 133; 153; 144]%Z.
Definition RIGHT_EAR_INDICES : list Z := [362; 385; 387; 263; 373; 380]%Z.

(** Attribute assignments [self.x = v]. *)
Definition set_left_eye_closed_time (v : float) (self : EyeTracker) : EyeTracker :=
  {| ear_threshold := ear_threshold self;
     wink_duration := wink_duration self;
     left_eye_closed_time := v;
     right_eye_closed_time := right_eye_closed_time self;
     last_blink_time := last_blink_time self;
     blink_count := blink_count self;
     gaze_history := gaze_history self;
     gaze_history_max := gaze_history_max self;
     frame_width := frame_width self;
     frame_height := frame_height self |}.

Definition set_right_eye_closed_time (v : float) (self : EyeTracker) : EyeTracker :=
  {| ear_threshold := ear_threshold self;
     wink_duration := wink_duration self;
     left_eye_closed_time := left_eye_closed_time self;
     right_eye_closed_time := v;
     last_blink_time := last_blink_time self;
     blink_count := blink_count self;
     gaze_history := gaze_history self;
     gaze_history_max := gaze_history_max self;
     frame_width := frame_width self;
     frame_height := frame_height self |}.

Definition set_last_blink_time (v : float) (self : EyeTracker) : EyeTracker :=
  {| ear_threshold := ear_threshold self;
     wink_duration := wink_duration self;
     left_eye_closed_time := left_eye_closed_time self;
     right_eye_closed_time := right_eye_closed_time self;
     last_blink_time := v;
     blink_count := blink_count self;
     gaze_history := gaze_history self;
     gaze_history_max := gaze_history_max self;
     frame_width := frame_width self;
     frame_height := frame_height self |}.

Definition set_blink_count (v : Z) (self : EyeTracker) : EyeTracker :=
  {| ear_threshold := ear_threshold self;
     wink_duration := wink_duration self;
     left_eye_closed_time := left_eye_closed_time self;
     right_eye_closed_time := right_eye_closed_time self;
     last_blink_time := last_blink_time self;
     blink_count := v;
     gaze_history := gaze_history self;
     gaze_history_max := gaze_history_max self;
     frame_width := frame_width self;
     frame_height := frame_height self |}.

Definition set_gaze_history (v : list gaze) (self : EyeTracker) : EyeTracker :=
  {| ear_threshold := ear_threshold self;
     wink_duration := wink_duration self;
     left_eye_closed_time := left_eye_closed_time self;
     right_eye_closed_time := right_eye_closed_time self;
     last_blink_time := last_blink_time self;
     blink_count := blink_count self;
     gaze_history := v;
     gaze_history_max := gaze_history_max self;
     frame_width := frame_width self;
     frame_height := frame_height self |}.

(** [EyeTracker.__init__], without the MediaPipe handles. *)
Definition init (ear_threshold : float) (wink_duration : float * float) : EyeTracker :=
  {| ear_threshold := ear_threshold;
     wink_duration := wink_duration;
     left_eye_closed_time := 0;
     right_eye_closed_time := 0;
     last_blink_time := 0;
     blink_count := 0;
     gaze_history := [];
     gaze_history_max := 30;
     frame_width := 0;
     frame_height := 0 |}.

(** [EyeTracker()], with the default arguments of [__init__]. *)
Definition default_tracker : EyeTracker := init 0.25 (0.2, 0.5)%float.

(** [EyeTracker.set_frame_dimensions] *)
Definition set_frame_dimensions (self : EyeTracker) (width height : Z) : EyeTracker :=
  {| ear_threshold := ear_threshold self;
     wink_duration := wink_duration self;
     left_eye_closed_time := left_eye_closed_time self;
     right_eye_closed_time := right_eye_closed_time self;
     last_blink_time := last_blink_time self;
     blink_count := blink_count self;
     gaze_history := gaze_history self;
     gaze_history_max := gaze_history_max self;
     frame_width := width;
     frame_height := height |}.

(** ** The gesture state machine *)

Open Scope float_scope.

(** [EyeTracker.detect_gesture]: the returned gesture and the instance
    after the call. *)
Definition detect_gesture (self : EyeTracker) (left_ear right_ear current_time : float)
  : GestureType * EyeTracker :=
  let left_closed := left_ear <? ear_threshold self in
  let right_closed := right_ear <? ear_threshold self in
  (* Update eye closed times *)
  let self :=
    if left_closed then
      if left_eye_closed_time self =? 0
      then set_left_eye_closed_time current_time self
      else self
    else set_left_eye_closed_time 0 self in
  let self :=
    if right_closed then
      if right_eye_closed_time self =? 0
      then set_right_eye_closed_time current_time self
      else self
    else set_right_eye_closed_time 0 self in
  (* Detect gestures *)
  if left_closed && negb right_closed then
    if 0 <? left_eye_closed_time self then
      let duration := current_time - left_eye_closed_time self in
      if (fst (wink_duration self) <=? duration) && (duration <=? snd (wink_duration self))
      then (LEFT_WINK, self)
      else (NONE, self)
    else (NONE, self)
  else if right_closed && negb left_closed then
    if 0 <? right_eye_closed_time self then
      let duration := current_time - right_eye_closed_time self in
      if (fst (wink_duration self) <=? duration) && (duration <=? snd (wink_duration self))
      then (RIGHT_WINK, self)
      else (NONE, self)
    else (NONE, self)
  else if left_closed && right_closed then
    (* Both eyes closed - check for double blink *)
    if current_time - last_blink_time self <? 0.5 then
      let self := set_blink_count (blink_count self + 1) self in
      if (2 <=? blink_count self)%Z
      then (DOUBLE_BLINK, set_blink_count 0 self)
      else (NONE, set_last_blink_time current_time self)
    else
      let self := set_blink_count 1 self in
      (NONE, set_last_blink_time current_time self)
  else (NONE, self).

(** ** Eye metrics *)

(** [np.linalg.norm(np.array(p) - np.array(q))].  Two points with
    coordinates in the [int64] range give [int64] arrays, whose difference
    wraps around; [norm] converts it to binary64 and takes the square root
    of the dot product.  With both differences at most 2^26 in magnitude the
    conversions, the squares and their sum are exact, whatever the order or
    fusing of the dot product, and only the square root rounds.  Outside
    these bounds the result is [NumpyOutOfRange]. *)
Definition norm_diff (p q : point) : result float :=
  if in_int64 (fst p) && in_int64 (snd p) && in_int64 (fst q) && in_int64 (snd q)
  then
    let dx := wrap64 (fst p - fst q) in
    let dy := wrap64 (snd p - snd q) in
    if ((Z.abs dx <=? 2 ^ 26) && (Z.abs dy <=? 2 ^ 26))%Z
    then Ok (sqrt (Z2F dx * Z2F dx + Z2F dy * Z2F dy))
    else Raise NumpyOutOfRange
  else Raise NumpyOutOfRange.

(** Lines 98-103 of [calculate_ear]: the six role-tagged points, in the
    order the subscripts are evaluated. *)
Definition ear_points (landmarks : list point) (eye_indices : list Z)
  : result (point * point * point * point * point * point) :=
  i0 <- index eye_indices 0 ;; p1 <- index landmarks i0 ;;
  i1 <- index eye_indices 1 ;; p2 <- index landmarks i1 ;;
  i2 <- index eye_indices 2 ;; p3 <- index landmarks i2 ;;
  i3 <- index eye_indices 3 ;; p4 <- index landmarks i3 ;;
  i4 <- index eye_indices 4 ;; p5 <- index landmarks i4 ;;
  i5 <- index eye_indices 5 ;; p6 <- index landmarks i5 ;;
  Ok (p1, p2, p3, p4, p5, p6).

(** [EyeTracker.calculate_ear] *)
Definition calculate_ear (landmarks : list point) (eye_indices : list Z) : result float :=
  m <- Py.max eye_indices ;;
  if (len landmarks <? m + 1)%Z then Ok 0
  else
    ' (p1, p2, p3, p4, p5, p6) <- ear_points landmarks eye_indices ;;
    vertical_1 <- norm_diff p2 p6 ;;
    vertical_2 <- norm_diff p3 p5 ;;
    horizontal <- norm_diff p1 p4 ;;
    if horizontal =? 0 then Ok 0
    else Ok ((vertical_1 + vertical_2) / (2 * horizontal)).

(** [EyeTracker.calculate_gaze] *)
Definition calculate_gaze (self : EyeTracker) (landmarks : list point) (eye_indices : list Z)
  : result gaze :=
  m <- Py.max eye_indices ;;
  if (len landmarks <? m + 1)%Z then Ok (0.5, 0.5)
  else
    i0 <- index eye_indices 0 ;; eye_center <- index landmarks i0 ;;
    i1 <- index eye_indices 1 ;; iris_center <- index landmarks i1 ;;
    if (0 <? frame_width self)%Z && (0 <? frame_height self)%Z then
      gaze_x <- truediv (fst iris_center) (frame_width self) ;;
      gaze_y <- truediv (snd iris_center) (frame_height self) ;;
      Ok (gaze_x, gaze_y)
    else Ok (0.5, 0.5).

(** ** Frame processing *)

(** What [process_frame] reads from its collaborators: the frame's
    [shape] (rows, columns), the frame being a three-channel image of 8-bit
    pixels as the capture delivers, and the faces MediaPipe reports for it,
    each a list of normalised landmark coordinates. *)
Record Frame : Set := {
  shape : Z * Z;
  multi_face_landmarks : list (list (float * float))
}.

(** [cv2.cvtColor(frame, cv2.COLOR_BGR2RGB)] (line 213): [cv2.error] on an
    empty frame. *)
Definition cvtColor_BGR2RGB (frame : Frame) : result unit :=
  if (fst (shape frame) <=? 0)%Z || (snd (shape frame) <=? 0)%Z
  then Raise CvError
  else Ok tt.

(** Lines 246-248 of [process_frame]: append, then drop the head when the
    list has grown beyond [gaze_history_max]. *)
Definition push_gaze (self : EyeTracker) (g : gaze) : EyeTracker :=
  let self := set_gaze_history (gaze_history self ++ [g]) self in
  if (gaze_history_max self <? len (gaze_history self))%Z
  then set_gaze_history (tl (gaze_history self)) self
  else self.

(** Lines 226-229: one landmark to pixel coordinates. *)
Definition to_pixel (self : EyeTracker) (landmark : float * float) : result point :=
  w <- float_of_int (frame_width self) ;;
  x <- Py.int (fst landmark * w) ;;
  h <- float_of_int (frame_height self) ;;
  y <- Py.int (snd landmark * h) ;;
  Ok (x, y).

(** [EyeTracker.process_frame]: what the call returns or raises, and the
    instance after it. *)
Definition process_frame (self : EyeTracker) (frame : Frame) (timestamp : float)
  : result (option EyeData) * EyeTracker :=
  let self :=
    if (frame_width self =? 0)%Z || (frame_height self =? 0)%Z
    then set_frame_dimensions self (snd (shape frame)) (fst (shape frame))
    else self in
  match cvtColor_BGR2RGB frame with
  | Raise e => (Raise e, self)
  | Ok _ =>
      match multi_face_landmarks frame with
      | [] => (Ok None, self)
      | face_landmarks :: _ =>
          match
            (landmarks <- mapM (to_pixel self) face_landmarks ;;
             left_ear <- calculate_ear landmarks LEFT_EAR_INDICES ;;
             right_ear <- calculate_ear landmarks RIGHT_EAR_INDICES ;;
             left_gaze <- calculate_gaze self landmarks LEFT_EYE_INDICES ;;
             right_gaze <- calculate_gaze self landmarks RIGHT_EYE_INDICES ;;
             Ok (landmarks, left_ear, right_ear, left_gaze, right_gaze))
          with
          | Raise e => (Raise e, self)
          | Ok (landmarks, left_ear, right_ear, left_gaze, right_gaze) =>
              let combined_gaze :=
                ((fst left_gaze + fst right_gaze) / 2,
                 (snd left_gaze + snd right_gaze) / 2) in
              let self := push_gaze self combined_gaze in
              let is_blinking :=
                (left_ear <? ear_threshold self) || (right_ear <? ear_threshold self) in
              let '(gesture, self) := detect_gesture self left_ear right_ear timestamp in
              (Ok (Some {| left_ear := left_ear;
                           right_ear := right_ear;
                           left_gaze := left_gaze;
                           right_gaze := right_gaze;
                           combined_gaze := combined_gaze;
                           is_blinking := is_blinking;
                           gesture := gesture;
                           landmarks := landmarks |}), self)
          end
      end
  end.

(** [EyeTracker.get_gaze_history]: a copy of the list. *)
Definition get_gaze_history (self : EyeTracker) : list gaze := gaze_history self.

(** [EyeTracker.reset_metrics] *)
Definition reset_metrics (self : EyeTracker) : EyeTracker :=
  let self := set_left_eye_closed_time 0 self in
  let self := set_right_eye_closed_time 0 self in
  let self := set_last_blink_time 0 self in
  let self := set_blink_count 0 self in
  set_gaze_history [] self.

(** ** Call sequences *)

(** The calls the applications make on a tracker; [SetEarThreshold] is the
    attribute assignment [tracker.ear_threshold = v] of [main.py]. *)
Inductive call : Set :=
| SetFrameDimensions (width height : Z)
| SetEarThreshold (v : float)
| DetectGesture (left_ear right_ear current_time : float)
| ProcessFrame (frame : Frame) (timestamp : float)
| ResetMetrics.

Definition step (self : EyeTracker) (c : call) : EyeTracker :=
  match c with
  | SetFrameDimensions w h => set_frame_dimensions self w h
  | SetEarThreshold v =>
      {| ear_threshold := v;
         wink_duration := wink_duration self;
         left_eye_closed_time := left_eye_closed_time self;
         right_eye_closed_time := right_eye_closed_time self;
         last_blink_time := last_blink_time self;
         blink_count := blink_count self;
         gaze_history := gaze_history self;
         gaze_history_max := gaze_history_max self;
         frame_width := frame_width self;
         frame_height := frame_height self |}
  | DetectGesture l r t => snd (detect_gesture self l r t)
  | ProcessFrame f t => snd (process_frame self f t)
  | ResetMetrics => reset_metrics self
  end.

(** The states a tracker can be in: a constructed one, after any calls. *)
Inductive reachable : EyeTracker -> Prop :=
| reachable_init : forall thr wd, reachable (init thr wd)
| reachable_step : forall self c, reachable self -> reachable (step self c).

(** The gestures returned by a run of [detect_gesture] calls, one per
    [(left_ear, right_ear, current_time)] triple, and the final instance. *)
Fixpoint run_gestures (self : EyeTracker) (calls : list (float * float * float))
  : list GestureType * EyeTracker :=
  match calls with
  | [] => ([], self)
  | (l, r, t) :: rest =>
      let '(g, self) := detect_gesture self l r t in
      let '(gs, self) := run_gestures self rest in
      (g :: gs, self)
  end.

(** ** Vocabulary of the properties *)

(** A closure timer holds a timestamp when it is not the sentinel [0]
    ([self.left_eye_closed_time == 0] is the code's test for "unset"). *)
Definition timer_set (timer : float) : bool := negb (timer =? 0).

Inductive eye : Set := LeftEye | RightEye.

Definition wink_of (e : eye) : GestureType :=
  match e with
  | LeftEye => LEFT_WINK
  | RightEye => RIGHT_WINK
  end.

Definition closed_time (e : eye) (self : EyeTracker) : float :=
  match e with
  | LeftEye => left_eye_closed_time self
  | RightEye => right_eye_closed_time self
  end.

(** A frame with both eyes open, at ratio 0.4. *)
Definition open_call (t : float) : float * float * float := (0.4, 0.4, t).

(** A frame with only eye [e] closed, at ratio 0.1. *)
Definition wink_call (e : eye) (t : float) : float * float * float :=
  match e with
  | LeftEye => (0.1, 0.4, t)
  | RightEye => (0.4, 0.1, t)
  end.

(** Eye open, then eye [e] closed on the frames at [ts], then eye open. *)
Definition wink_scenario (e : eye) (t_open : float) (ts : list float) (t_end : float)
  : list (float * float * float) :=
  open_call t_open :: map (wink_call e) ts ++ [open_call t_end].

(** [self.wink_duration[0] <= duration <= self.wink_duration[1]] *)
Definition in_wink_range (self : EyeTracker) (duration : float) : bool :=
  (fst (wink_duration self) <=? duration) && (duration <=? snd (wink_duration self)).

(** What the wink scenario maintains once eye [e] has closed at [t1]. *)
Definition closing (e : eye) (t1 : float) (self : EyeTracker) : Prop :=
  ear_threshold self = 0.25 /\
  wink_duration self = (0.2, 0.5) /\
  closed_time e self = t1.

(** The gesture of a closed-eye call at [t] when eye [e] closed at [t1]. *)
Definition expected (e : eye) (t1 t : float) : GestureType :=
  if in_wink_range default_tracker (t - t1) then wink_of e else NONE.

(** The guard of line 94 fires: the list is shorter than the highest
    index plus one. *)
Definition landmarks_too_short (landmarks : list point) (eye_indices : list Z) : bool :=
  match Py.max eye_indices with
  | Ok m => (len landmarks <? m + 1)%Z
  | Raise _ => false
  end.

(** A pixel coordinate pair: both coordinates at most 2^25 in magnitude. *)
Definition pixel_sized (p : point) : bool :=
  ((Z.abs (fst p) <=? 2 ^ 25) && (Z.abs (snd p) <=? 2 ^ 25))%Z.


(** The last [n] elements of a list, in order. *)
Definition last_n {A : Type} (n : nat) (l : list A) : list A :=
  skipn (length l - n) l.

(** A run of [process_frame] calls: what each returns or raises, and the
    final instance.  A raised exception leaves the instance as it was when
    raised, and the caller goes on with the next frame. *)
Fixpoint run_frames (self : EyeTracker) (inputs : list (Frame * float))
  : list (result (option EyeData)) * EyeTracker :=
  match inputs with
  | [] => ([], self)
  | (frame, timestamp) :: rest =>
      let '(out, self) := process_frame self frame timestamp in
      let '(outs, self) := run_frames self rest in
      (out :: outs, self)
  end.

(** The combined-gaze points of the frames that produced an [EyeData],
    in order of arrival. *)
Fixpoint pushed_points (outs : list (result (option EyeData))) : list gaze :=
  match outs with
  | [] => []
  | Ok (Some d) :: rest => combined_gaze d :: pushed_points rest
  | _ :: rest => pushed_points rest
  end.

(** The capacity is 30 and the history is within it. *)
Definition history_bounded (self : EyeTracker) : Prop :=
  gaze_history_max self = 30%Z /\ (length (gaze_history self) <= 30)%nat.

(** Frame [i] of a 640 by 480 stream: one face, every landmark at
    normalised position ([i]/64, 0.5). *)
Definition sample_frame (i : Z) : Frame * float :=
  ({| shape := (480, 640)%Z;
      multi_face_landmarks := [repeat (Z2F i / 64, 0.5) 478] |}, Z2F i).

Definition sample_frames (first : Z) (count : nat) : list (Frame * float) :=
  map (fun k => sample_frame (first + Z.of_nat k)) (seq 0 count).



(** ** The data logger of [src/data_logger.py] *)

(** [GestureType.value] and the members in definition order, as
    [for gesture in GestureType] visits them. *)
Module Gesture.
Import String.

Definition value (g : GestureType) : string :=
  match g with
  | NONE => "none"%string
  | LEFT_WINK => "left_wink"%string
  | RIGHT_WINK => "right_wink"%string
  | DOUBLE_BLINK => "double_blink"%string
  | SUSTAINED_GAZE => "sustained_gaze"%string
  end.

Definition members : list GestureType :=
  [NONE; LEFT_WINK; RIGHT_WINK; DOUBLE_BLINK; SUSTAINED_GAZE].

End Gesture.

(** The dictionary [log_entry]: one field per key, [None] where the
    no-face entry stores [None]. *)
Module LogEntry.

Record t : Set := {
  timestamp : String.string;
  session_id : String.string;
  frame_number : Z;
  left_ear : option float;
  right_ear : option float;
  left_gaze_x : option float;
  left_gaze_y : option float;
  right_gaze_x : option float;
  right_gaze_y : option float;
  combined_gaze_x : option float;
  combined_gaze_y : option float;
  is_blinking : bool;
  gesture : String.string;
  gesture_duration : float;
  fps : float
}.

End LogEntry.

Module DataLogger.

(** The attributes the logging methods read or write, and [csv_rows], the
    data rows of the file at [log_file], which [to_csv(mode='a')] extends. *)
Record t : Set := {
  session_id : String.string;
  data_buffer : list LogEntry.t;
  buffer_size : Z;
  csv_rows : list LogEntry.t
}.

(** [DataLogger.__init__]: [session_id] is the formatted clock reading;
    [_initialize_logging] creates the file with its header row only. *)
Definition init (session_id : String.string) : t :=
  {| session_id := session_id;
     data_buffer := [];
     buffer_size := 100;
     csv_rows := [] |}.

(** [DataLogger._flush_buffer] *)
Definition _flush_buffer (self : t) : t :=
  match data_buffer self with
  | [] => self
  | _ :: _ =>
      {| session_id := session_id self;
         data_buffer := [];
         buffer_size := buffer_size self;
         csv_rows := csv_rows self ++ data_buffer self |}
  end.

(** Lines 91-95 and 125-129: append, flush when the buffer is full. *)
Definition append_entry (self : t) (log_entry : LogEntry.t) : t :=
  let self :=
    {| session_id := session_id self;
       data_buffer := data_buffer self ++ [log_entry];
       buffer_size := buffer_size self;
       csv_rows := csv_rows self |} in
  if (buffer_size self <=? len (data_buffer self))%Z
  then _flush_buffer self
  else self.

(** The entry [log_eye_data] builds; [now] is [datetime.now().isoformat()]. *)
Definition eye_data_entry (self : t) (now : String.string) (eye_data : EyeData)
    (frame_number : Z) (fps gesture_duration : float) : LogEntry.t :=
  {| LogEntry.timestamp := now;
     LogEntry.session_id := session_id self;
     LogEntry.frame_number := frame_number;
     LogEntry.left_ear := Some (left_ear eye_data);
     LogEntry.right_ear := Some (right_ear eye_data);
     LogEntry.left_gaze_x := Some (fst (left_gaze eye_data));
     LogEntry.left_gaze_y := Some (snd (left_gaze eye_data));
     LogEntry.right_gaze_x := Some (fst (right_gaze eye_data));
     LogEntry.right_gaze_y := Some (snd (right_gaze eye_data));
     LogEntry.combined_gaze_x := Some (fst (combined_gaze eye_data));
     LogEntry.combined_gaze_y := Some (snd (combined_gaze eye_data));
     LogEntry.is_blinking := is_blinking eye_data;
     LogEntry.gesture := Gesture.value (gesture eye_data);
     LogEntry.gesture_duration := gesture_duration;
     LogEntry.fps := fps |}.

(** The entry [log_no_face_detected] builds. *)
Definition no_face_entry (self : t) (now : String.string) (frame_number : Z)
    (fps : float) : LogEntry.t :=
  {| LogEntry.timestamp := now;
     LogEntry.session_id := session_id self;
     LogEntry.frame_number := frame_number;
     LogEntry.left_ear := None;
     LogEntry.right_ear := None;
     LogEntry.left_gaze_x := None;
     LogEntry.left_gaze_y := None;
     LogEntry.right_gaze_x := None;
     LogEntry.right_gaze_y := None;
     LogEntry.combined_gaze_x := None;
     LogEntry.combined_gaze_y := None;
     LogEntry.is_blinking := false;
     LogEntry.gesture := Gesture.value NONE;
     LogEntry.gesture_duration := 0;
     LogEntry.fps := fps |}.

(** [DataLogger.log_eye_data] *)
Definition log_eye_data (self : t) (now : String.string) (eye_data : EyeData)
    (frame_number : Z) (fps gesture_duration : float) : t :=
  append_entry self (eye_data_entry self now eye_data frame_number fps gesture_duration).

(** [DataLogger.log_no_face_detected] *)
Definition log_no_face_detected (self : t) (now : String.string) (frame_number : Z)
    (fps : float) : t :=
  append_entry self (no_face_entry self now frame_number fps).

(** [DataLogger.close] *)
Definition close (self : t) : t := _flush_buffer self.

(** The calls made on a logger during a session. *)
Inductive call : Set :=
| LogEyeData (now : String.string) (eye_data : EyeData) (frame_number : Z)
    (fps gesture_duration : float)
| LogNoFaceDetected (now : String.string) (frame_number : Z) (fps : float)
| Close.

Definition step (self : t) (c : call) : t :=
  match c with
  | LogEyeData now d n fps dur => log_eye_data self now d n fps dur
  | LogNoFaceDetected now n fps => log_no_face_detected self now n fps
  | Close => close self
  end.

(** The entries a run of calls hands to the logger, in call order. *)
Definition entries_of (self : t) (calls : list call) : list LogEntry.t :=
  flat_map (fun c => match c with
                     | LogEyeData now d n fps dur => [eye_data_entry self now d n fps dur]
                     | LogNoFaceDetected now n fps => [no_face_entry self now n fps]
                     | Close => []
                     end) calls.

(** Every entry handed to the logger so far: written rows, then buffer. *)
Definition logged (self : t) : list LogEntry.t := csv_rows self ++ data_buffer self.

End DataLogger.

(** ** The application of [src/main.py] *)

Module EyeTrackingApp.
Import Ascii.

(** [ord(c)] *)
Definition ord (c : ascii) : Z := Z.of_N (N_of_ascii c).

(** What a method of the application can raise: an exception of the
    tracker or of the arithmetic, or [KeyError] from the counts. *)
Inductive error : Set :=
| Exn (e : Py.exn)
| KeyError (key : String.string).

(** [d[k]] and [d[k] = v] on a dictionary kept in insertion order. *)
Fixpoint dict_get (d : list (String.string * Z)) (k : String.string) : option Z :=
  match d with
  | [] => None
  | (k', v) :: rest => if String.eqb k' k then Some v else dict_get rest k
  end.

Fixpoint dict_set (d : list (String.string * Z)) (k : String.string) (v : Z)
  : list (String.string * Z) :=
  match d with
  | [] => [(k, v)]
  | (k', v') :: rest =>
      if String.eqb k' k then (k', v) :: rest else (k', v') :: dict_set rest k v
  end.

(** The attributes [process_frame] and [handle_keyboard_input] read or
    write. *)
Record t : Set := {
  eye_tracker : EyeTracker;
  data_logger : DataLogger.t;
  frame_count : Z;
  total_blinks : Z;
  gesture_counts : list (String.string * Z);
  fps_history : list float;
  show_debug : bool;
  last_fps_time : float
}.

(** Attribute assignments [self.x = v]. *)
Definition set_eye_tracker (v : EyeTracker) (self : t) : t :=
  {| eye_tracker := v;
     data_logger := data_logger self;
     frame_count := frame_count self;
     total_blinks := total_blinks self;
     gesture_counts := gesture_counts self;
     fps_history := fps_history self;
     show_debug := show_debug self;
     last_fps_time := last_fps_time self |}.

Definition set_data_logger (v : DataLogger.t) (self : t) : t :=
  {| eye_tracker := eye_tracker self;
     data_logger := v;
     frame_count := frame_count self;
     total_blinks := total_blinks self;
     gesture_counts := gesture_counts self;
     fps_history := fps_history self;
     show_debug := show_debug self;
     last_fps_time := last_fps_time self |}.

Definition set_frame_count (v : Z) (self : t) : t :=
  {| eye_tracker := eye_tracker self;
     data_logger := data_logger self;
     frame_count := v;
     total_blinks := total_blinks self;
     gesture_counts := gesture_counts self;
     fps_history := fps_history self;
     show_debug := show_debug self;
     last_fps_time := last_fps_time self |}.

Definition set_total_blinks (v : Z) (self : t) : t :=
  {| eye_tracker := eye_tracker self;
     data_logger := data_logger self;
     frame_count := frame_count self;
     total_blinks := v;
     gesture_counts := gesture_counts self;
     fps_history := fps_history self;
     show_debug := show_debug self;
     last_fps_time := last_fps_time self |}.

Definition set_gesture_counts (v : list (String.string * Z)) (self : t) : t :=
  {| eye_tracker := eye_tracker self;
     data_logger := data_logger self;
     frame_count := frame_count self;
     total_blinks := total_blinks self;
     gesture_counts := v;
     fps_history := fps_history self;
     show_debug := show_debug self;
     last_fps_time := last_fps_time self |}.

Definition set_fps_history (v : list float) (self : t) : t :=
  {| eye_tracker := eye_tracker self;
     data_logger := data_logger self;
     frame_count := frame_count self;
     total_blinks := total_blinks self;
     gesture_counts := gesture_counts self;
     fps_history := v;
     show_debug := show_debug self;
     last_fps_time := last_fps_time self |}.

Definition set_last_fps_time (v : float) (self : t) : t :=
  {| eye_tracker := eye_tracker self;
     data_logger := data_logger self;
     frame_count := frame_count self;
     total_blinks := total_blinks self;
     gesture_counts := gesture_counts self;
     fps_history := fps_history self;
     show_debug := show_debug self;
     last_fps_time := v |}.

Definition set_show_debug (v : bool) (self : t) : t :=
  {| eye_tracker := eye_tracker self;
     data_logger := data_logger self;
     frame_count := frame_count self;
     total_blinks := total_blinks self;
     gesture_counts := gesture_counts self;
     fps_history := fps_history self;
     show_debug := v;
     last_fps_time := last_fps_time self |}.

(** [{gesture.value: 0 for gesture in GestureType}] *)
Definition zero_counts : list (String.string * Z) :=
  map (fun g => (Gesture.value g, 0%Z)) Gesture.members.

(** [EyeTrackingApp.__init__]; [session_id] is the clock reading
    [DataLogger()] formats. *)
Definition init (session_id : String.string) : t :=
  {| eye_tracker := default_tracker;
     data_logger := DataLogger.init session_id;
     frame_count := 0;
     total_blinks := 0;
     gesture_counts := zero_counts;
     fps_history := [];
     show_debug := false;
     last_fps_time := 0 |}.

(** What a call of [process_frame] gives back: the returned dictionary,
    or the exception that left the method. *)
Inductive outcome : Set :=
| Returned (eye_data : option EyeData) (fps : float) (frame_count : Z)
| Raised (e : error).

Section WithSum.

(** The builtin [sum] on a list of floats.  CPython adds left to right
    before 3.12 and with compensation since; the model takes it as given. *)
Variable sum : list float -> float.

(** Lines 94-101: the frame-rate sample.  [1.0 / x] raises
    [ZeroDivisionError] when [x == 0]. *)
Definition update_fps (self : t) (current_time : float) : result t :=
  if last_fps_time self =? 0 then Ok (set_last_fps_time current_time self)
  else if current_time - last_fps_time self =? 0 then Raise ZeroDivisionError
  else
    let fps := 1 / (current_time - last_fps_time self) in
    let self := set_fps_history (fps_history self ++ [fps]) self in
    let self :=
      if (30 <? len (fps_history self))%Z
      then set_fps_history (tl (fps_history self)) self
      else self in
    Ok (set_last_fps_time current_time self).

(** Line 103 *)
Definition avg_fps (self : t) : float :=
  match fps_history self with
  | [] => 0
  | _ :: _ => sum (fps_history self) / Z2F (len (fps_history self))
  end.

(** Lines 109-115: the blink and gesture counters; the exception, if
    any, with the instance as it is when raised. *)
Definition count_result (self : t) (eye_data : EyeData) : option error * t :=
  let self :=
    if is_blinking eye_data
    then set_total_blinks (total_blinks self + 1) self
    else self in
  if GestureType_eq_dec (gesture eye_data) NONE then (None, self)
  else
    let key := Gesture.value (gesture eye_data) in
    match dict_get (gesture_counts self) key with
    | None => (Some (KeyError key), self)
    | Some n => (None, set_gesture_counts (dict_set (gesture_counts self) key (n + 1)) self)
    end.

(** [EyeTrackingApp.process_frame]; [current_time] is [time.time()] and
    [now] the [datetime.now().isoformat()] the logger reads. *)
Definition process_frame (self : t) (frame : Frame) (current_time : float)
    (now : String.string) : outcome * t :=
  let self := set_frame_count (frame_count self + 1) self in
  match update_fps self current_time with
  | Raise e => (Raised (Exn e), self)
  | Ok self =>
      let avg_fps := avg_fps self in
      let '(eye_data, tracker) := process_frame (eye_tracker self) frame current_time in
      let self := set_eye_tracker tracker self in
      match eye_data with
      | Raise e => (Raised (Exn e), self)
      | Ok (Some eye_data) =>
          match count_result self eye_data with
          | (Some e, self) => (Raised e, self)
          | (None, self) =>
              let self :=
                set_data_logger
                  (DataLogger.log_eye_data (data_logger self) now eye_data
                     (frame_count self) avg_fps 0) self in
              (Returned (Some eye_data) avg_fps (frame_count self), self)
          end
      | Ok None =>
          let self :=
            set_data_logger
              (DataLogger.log_no_face_detected (data_logger self) now
                 (frame_count self) avg_fps) self in
          (Returned None avg_fps (frame_count self), self)
      end
  end.

(** A run of [process_frame] calls, as the main loop makes them. *)
Fixpoint run (self : t) (inputs : list (Frame * float * String.string))
  : list outcome * t :=
  match inputs with
  | [] => ([], self)
  | (frame, current_time, now) :: rest =>
      let '(out, self) := process_frame self frame current_time now in
      let '(outs, self) := run self rest in
      (out :: outs, self)
  end.

End WithSum.

(** [EyeTrackingApp.handle_keyboard_input]: whether to continue, and the
    instance after the key.  Saving a screenshot writes a file and changes
    no attribute. *)
Definition handle_keyboard_input (self : t) (key : Z) : bool * t :=
  if (key =? ord "q")%Z || (key =? ord "Q")%Z then (false, self)
  else if (key =? ord "s")%Z || (key =? ord "S")%Z then (true, self)
  else if (key =? ord "r")%Z || (key =? ord "R")%Z then
    let self := set_eye_tracker (reset_metrics (eye_tracker self)) self in
    let self := set_total_blinks 0 self in
    let self := set_gesture_counts zero_counts self in
    let self := set_fps_history [] self in
    (true, self)
  else if (key =? ord "d")%Z || (key =? ord "D")%Z then
    (true, set_show_debug (negb (show_debug self)) self)
  else (true, self).

(** The calls the main loop makes on the application. *)
Inductive call : Set :=
| ProcessFrame (frame : Frame) (current_time : float) (now : String.string)
| Key (key : Z).

Definition step (sum : list float -> float) (self : t) (c : call) : t :=
  match c with
  | ProcessFrame frame current_time now =>
      snd (process_frame sum self frame current_time now)
  | Key key => snd (handle_keyboard_input self key)
  end.

(** The returned results that carry an [EyeData]. *)
Fixpoint results (outs : list outcome) : list EyeData :=
  match outs with
  | [] => []
  | Returned (Some d) _ _ :: rest => d :: results rest
  | _ :: rest => results rest
  end.

End EyeTrackingApp.

(** The counts dictionary has the five gesture values as keys, in order. *)
Definition well_keyed (d : list (String.string * Z)) : Prop :=
  map fst d = map Gesture.value Gesture.members.

(** [sum] as CPython before 3.12 computes it: left to right from 0. *)
Definition naive_sum (l : list float) : float := fold_left PrimFloat.add l 0.

(** ** Facts about binary64 comparisons *)

Lemma SFcompare_antisym (x y : spec_float) :
  SFcompare y x = option_map CompOpp (SFcompare x y).
Proof.
  destruct x as [ [|] | [|] | | [|] m1 e1 ], y as [ [|] | [|] | | [|] m2 e2 ];
    try reflexivity; cbn [SFcompare option_map];
    rewrite (Z.compare_antisym e1 e2);
    destruct (e1 ?= e2)%Z; cbn [CompOpp]; try reflexivity;
    rewrite (Pos.compare_cont_antisym m1 m2 Eq); cbn [CompOpp];
    destruct (Pos.compare_cont Eq m1 m2); reflexivity.
Qed.

(** [0 < t] excludes [t == 0]. *)
Lemma ltb_0_neq_0 (t : float) : (0 <? t) = true -> (t =? 0) = false.
Proof.
  rewrite ltb_spec, eqb_spec.
  unfold SFltb, SFeqb.
  rewrite (SFcompare_antisym (Prim2SF 0) (Prim2SF t)).
  destruct (SFcompare (Prim2SF 0) (Prim2SF t)) as [ [ | | ] | ];
    cbn; congruence.
Qed.

(** [y <= x] excludes [x < y]. *)
Lemma leb_not_ltb (x y : float) : (y <=? x) = true -> (x <? y) = false.
Proof.
  rewrite leb_spec, ltb_spec.
  unfold SFleb, SFltb.
  rewrite (SFcompare_antisym (Prim2SF y) (Prim2SF x)).
  destruct (SFcompare (Prim2SF y) (Prim2SF x)) as [ [ | | ] | ];
    cbn; congruence.
Qed.

(** ** Reasoning about [detect_gesture] *)

(** Reduce attribute reads of updated instances, and nothing else. *)
Ltac fields :=
  cbn [ear_threshold wink_duration left_eye_closed_time right_eye_closed_time
       last_blink_time blink_count gaze_history gaze_history_max frame_width
       frame_height set_left_eye_closed_time set_right_eye_closed_time
       set_last_blink_time set_blink_count set_gaze_history
       set_frame_dimensions init fst snd andb orb negb] in *.

(** Split on an innermost test of the goal. *)
Ltac break_if :=
  match goal with
  | |- context [if ?b then _ else _] =>
      lazymatch b with
      | context [if _ then _ else _] => fail
      | _ => destruct b eqn:?
      end
  end.

Ltac gesture_cases := unfold detect_gesture; fields; repeat (break_if; fields).

(** Both eyes closed at [current_time]: [DOUBLE_BLINK] leaves the reference
    timestamp alone, every other outcome records [current_time]. *)
Lemma detect_gesture_last_blink_time self l r t :
  (l <? ear_threshold self) = true ->
  (r <? ear_threshold self) = true ->
  last_blink_time (snd (detect_gesture self l r t)) =
    match fst (detect_gesture self l r t) with
    | DOUBLE_BLINK => last_blink_time self
    | _ => t
    end.
Proof.
  intros Hl Hr. unfold detect_gesture. rewrite Hl, Hr. fields.
  repeat (break_if; fields); reflexivity.
Qed.

(** [detect_gesture] reads the configuration and never writes it. *)
Lemma detect_gesture_config self l r t :
  let self' := snd (detect_gesture self l r t) in
  ear_threshold self' = ear_threshold self /\
  wink_duration self' = wink_duration self /\
  gaze_history self' = gaze_history self /\
  gaze_history_max self' = gaze_history_max self /\
  frame_width self' = frame_width self /\
  frame_height self' = frame_height self.
Proof. gesture_cases; repeat split. Qed.

(** C1, at its failing input: a fresh tracker sees both eyes closed at 1.0
    and again at 1.3.  The second call returns [DOUBLE_BLINK] and leaves
    [last_blink_time] at 1.0 instead of recording 1.3. *)
Theorem double_blink_skips_last_blink_time :
  let s1 := snd (detect_gesture default_tracker 0.1 0.1 1.0) in
  let r2 := detect_gesture s1 0.1 0.1 1.3 in
  (0.1 <? ear_threshold s1) = true /\
  fst r2 = DOUBLE_BLINK /\
  last_blink_time (snd r2) = 1.0 /\
  (last_blink_time (snd r2) =? 1.3) = false.
Proof. vm_compute. repeat split. Qed.

(** C3 as stated fails at timestamp 0: the left eye is closed and its
    timer is unset before the call, yet the timer is still unset after. *)
Lemma closure_timer_unset_at_timestamp_zero :
  (0.1 <? ear_threshold default_tracker) = true /\
  timer_set (left_eye_closed_time default_tracker) = false /\
  timer_set (left_eye_closed_time (snd (detect_gesture default_tracker 0.1 0.4 0)))
    = false.
Proof. vm_compute. repeat split. Qed.

(** C3, amended: for a call with a non-zero timestamp [t], an eye whose
    ratio is below the threshold and whose timer was unset has its timer
    equal to [t], hence set, after the call.  For every timestamp, an eye
    whose ratio is at or above the threshold, and more generally any eye not
    detected closed in this frame, has its timer unset after the call. *)
Theorem closure_timers_updated self l r t :
  let self' := snd (detect_gesture self l r t) in
  ((t =? 0) = false ->
   ((l <? ear_threshold self) = true ->
    timer_set (left_eye_closed_time self) = false ->
    left_eye_closed_time self' = t /\ timer_set (left_eye_closed_time self') = true) /\
   ((r <? ear_threshold self) = true ->
    timer_set (right_eye_closed_time self) = false ->
    right_eye_closed_time self' = t /\ timer_set (right_eye_closed_time self') = true)) /\
  ((ear_threshold self <=? l) = true -> timer_set (left_eye_closed_time self') = false) /\
  ((ear_threshold self <=? r) = true -> timer_set (right_eye_closed_time self') = false) /\
  ((l <? ear_threshold self) = false -> timer_set (left_eye_closed_time self') = false) /\
  ((r <? ear_threshold self) = false -> timer_set (right_eye_closed_time self') = false).
Proof.
  assert (Hopen :
    ((l <? ear_threshold self) = false ->
     timer_set (left_eye_closed_time (snd (detect_gesture self l r t))) = false) /\
    ((r <? ear_threshold self) = false ->
     timer_set (right_eye_closed_time (snd (detect_gesture self l r t))) = false)).
  { split; intros H; unfold detect_gesture; rewrite H; fields;
      repeat (break_if; fields); reflexivity. }
  destruct Hopen as [HL HR].
  cbv zeta. split; [ | repeat split; auto using leb_not_ltb ].
  intros Ht. unfold timer_set. split; intros Hc Hu;
    apply negb_false_iff in Hu;
    unfold detect_gesture; rewrite Hc; fields;
    repeat (break_if; fields);
    rewrite ?Ht; try (split; reflexivity); congruence.
Qed.

Lemma closure_timers_updated_witness :
  let self' := snd (detect_gesture default_tracker 0.1 0.4 1.0) in
  left_eye_closed_time self' = 1.0 /\
  timer_set (left_eye_closed_time self') = true /\
  timer_set (right_eye_closed_time self') = false.
Proof.
  pose proof (closure_timers_updated default_tracker 0.1 0.4 1.0) as H.
  cbv zeta in H. destruct H as [H1 [_ [H3 _]]].
  destruct (H1 eq_refl) as [HL _].
  destruct (HL eq_refl eq_refl) as [Ha Hb].
  cbv zeta. split; [exact Ha | split; [exact Hb | exact (H3 eq_refl)]].
Defined.

(** C8: in every state, hence in every reachable one, and on every input,
    [detect_gesture] returns one of [NONE], [LEFT_WINK], [RIGHT_WINK] and
    [DOUBLE_BLINK]: a member of the enumeration, never [SUSTAINED_GAZE];
    and no run of calls returns [SUSTAINED_GAZE] on any of them. *)
Theorem detect_gesture_never_sustained_gaze :
  (forall self l r t,
      let g := fst (detect_gesture self l r t) in
      (g = NONE \/ g = LEFT_WINK \/ g = RIGHT_WINK \/ g = DOUBLE_BLINK) /\
      g <> SUSTAINED_GAZE) /\
  (forall self calls, ~ In SUSTAINED_GAZE (fst (run_gestures self calls))).
Proof.
  assert (H : forall self l r t,
             fst (detect_gesture self l r t) = NONE \/
             fst (detect_gesture self l r t) = LEFT_WINK \/
             fst (detect_gesture self l r t) = RIGHT_WINK \/
             fst (detect_gesture self l r t) = DOUBLE_BLINK).
  { intros. gesture_cases; auto. }
  split.
  - intros self l r t g. split; [apply H | ].
    subst g. destruct (H self l r t) as [E | [E | [E | E]]];
      rewrite E; discriminate.
  - intros self calls. revert self.
    induction calls as [ | [[l r] t] rest IH]; intros self; cbn [run_gestures].
    + intros [].
    + pose proof (H self l r t) as Hg.
      destruct (detect_gesture self l r t) as [g s1]. cbn [fst] in Hg.
      specialize (IH s1). destruct (run_gestures s1 rest) as [gs s2].
      cbn [fst] in *. intros [E | Hin]; [ | exact (IH Hin)].
      destruct Hg as [G | [G | [G | G]]]; congruence.
Qed.

(** C9: [reset_metrics] zeroes both closure timers, the reference
    timestamp and the blink counter and empties the gaze history; it leaves
    the threshold, the wink range, the frame dimensions and the history
    capacity as they were; a second call in a row changes nothing. *)
Theorem reset_metrics_clears_state_only self :
  let self' := reset_metrics self in
  (left_eye_closed_time self' = 0 /\
   right_eye_closed_time self' = 0 /\
   last_blink_time self' = 0 /\
   blink_count self' = 0%Z /\
   gaze_history self' = []) /\
  (ear_threshold self' = ear_threshold self /\
   wink_duration self' = wink_duration self /\
   frame_width self' = frame_width self /\
   frame_height self' = frame_height self /\
   gaze_history_max self' = gaze_history_max self) /\
  reset_metrics self' = self'.
Proof. destruct self. cbv. repeat split. Qed.

(** C10: two consecutive calls with both ratios below the threshold, the
    first leaving the blink counter at 1 and the second less than 0.5
    seconds after the recorded reference timestamp: the second call returns
    [DOUBLE_BLINK], with no open-eye call in between. *)
Theorem sustained_closure_double_blink self l1 r1 t1 l2 r2 t2 :
  let s1 := snd (detect_gesture self l1 r1 t1) in
  (l1 <? ear_threshold self) = true ->
  (r1 <? ear_threshold self) = true ->
  blink_count s1 = 1%Z ->
  (l2 <? ear_threshold s1) = true ->
  (r2 <? ear_threshold s1) = true ->
  (t2 - last_blink_time s1 <? 0.5) = true ->
  fst (detect_gesture s1 l2 r2 t2) = DOUBLE_BLINK.
Proof.
  intros s1 _ _. clearbody s1.
  destruct s1 as [thr wd lt rt lb bc gh ghm fw fh]. fields.
  intros Hc Hl Hr Ht. subst bc.
  unfold detect_gesture. fields. rewrite Hl, Hr. fields.
  repeat (break_if; fields); try reflexivity; try congruence.
  all: match goal with
       | H : (2 <=? 1 + 1)%Z = false |- _ => discriminate H
       end.
Qed.

Lemma sustained_closure_double_blink_witness :
  let s1 := snd (detect_gesture default_tracker 0.1 0.1 1.0) in
  blink_count s1 = 1%Z /\
  (1.1 - last_blink_time s1 <? 0.5) = true /\
  fst (detect_gesture s1 0.1 0.1 1.1) = DOUBLE_BLINK.
Proof.
  cbv zeta. split; [reflexivity | split; [reflexivity | ]].
  apply (sustained_closure_double_blink default_tracker 0.1 0.1 1.0 0.1 0.1 1.1);
    reflexivity.
Defined.

(** The both-eyes-closed branch, read off the attributes before the call. *)
Lemma detect_gesture_both_closed self l r t :
  (l <? ear_threshold self) = true ->
  (r <? ear_threshold self) = true ->
  let fires :=
    (t - last_blink_time self <? 0.5) && (2 <=? blink_count self + 1)%Z in
  fst (detect_gesture self l r t) = (if fires then DOUBLE_BLINK else NONE) /\
  blink_count (snd (detect_gesture self l r t)) =
    (if t - last_blink_time self <? 0.5
     then if (2 <=? blink_count self + 1)%Z then 0%Z else (blink_count self + 1)%Z
     else 1%Z) /\
  last_blink_time (snd (detect_gesture self l r t)) =
    (if fires then last_blink_time self else t).
Proof.
  destruct self as [thr wd lt rt lb bc gh ghm fw fh]. fields.
  intros Hl Hr. unfold detect_gesture. fields. rewrite Hl, Hr. fields.
  repeat (break_if; fields); repeat split; reflexivity.
Qed.

(** C5: a freshly constructed tracker sees both eyes closed at [t], at
    [t + 0.3] and at [t + 0.3 + 0.3], the binary64 gap between the first two
    timestamps being inside the 0.5 second window.  The second call returns
    [DOUBLE_BLINK]; the third returns [NONE], not [DOUBLE_BLINK], and leaves
    the blink counter at 1, a fresh count. *)
Theorem double_blink_then_fresh_count thr wd l1 r1 l2 r2 l3 r3 t :
  let c1 := detect_gesture (init thr wd) l1 r1 t in
  let c2 := detect_gesture (snd c1) l2 r2 (t + 0.3) in
  let c3 := detect_gesture (snd c2) l3 r3 (t + 0.3 + 0.3) in
  (l1 <? thr) = true -> (r1 <? thr) = true ->
  (l2 <? thr) = true -> (r2 <? thr) = true ->
  (l3 <? thr) = true -> (r3 <? thr) = true ->
  (t + 0.3 - t <? 0.5) = true ->
  fst c2 = DOUBLE_BLINK /\
  fst c3 <> DOUBLE_BLINK /\
  fst c3 = NONE /\
  blink_count (snd c3) = 1%Z.
Proof.
  intros c1 c2 c3 Hl1 Hr1 Hl2 Hr2 Hl3 Hr3 Hgap.
  (* first call: the counter is 1 and the reference timestamp is [t] *)
  destruct (detect_gesture_config (init thr wd) l1 r1 t) as [T1 _].
  destruct (detect_gesture_both_closed (init thr wd) l1 r1 t Hl1 Hr1)
    as [_ [B1 L1]].
  fold c1 in T1, B1, L1. fields.
  assert (B1' : blink_count (snd c1) = 1%Z)
    by (rewrite B1; destruct (t - 0 <? 0.5); reflexivity).
  assert (L1' : last_blink_time (snd c1) = t)
    by (rewrite L1; destruct (t - 0 <? 0.5); reflexivity).
  (* second call *)
  destruct (detect_gesture_config (snd c1) l2 r2 (t + 0.3)) as [T2 _].
  destruct (detect_gesture_both_closed (snd c1) l2 r2 (t + 0.3)) as [G2 [B2 L2]];
    try (rewrite T1; assumption).
  fold c2 in T2, G2, B2, L2.
  rewrite L1', B1', Hgap in G2, B2, L2. cbn in G2, B2, L2.
  (* third call *)
  destruct (detect_gesture_both_closed (snd c2) l3 r3 (t + 0.3 + 0.3)) as [G3 [B3 _]];
    try (rewrite T2, T1; assumption).
  fold c3 in G3, B3.
  rewrite B2 in G3, B3. rewrite andb_false_r in G3.
  repeat split.
  - exact G2.
  - rewrite G3. discriminate.
  - exact G3.
  - rewrite B3. destruct (t + 0.3 + 0.3 - last_blink_time (snd c2) <? 0.5); reflexivity.
Qed.

Lemma double_blink_then_fresh_count_witness :
  (let c1 := detect_gesture default_tracker 0.1 0.1 1.0 in
   let c2 := detect_gesture (snd c1) 0.1 0.1 (1.0 + 0.3) in
   let c3 := detect_gesture (snd c2) 0.1 0.1 (1.0 + 0.3 + 0.3) in
   (0.1 <? 0.25) = true /\
   (1.0 + 0.3 - 1.0 <? 0.5) = true /\
   fst c2 = DOUBLE_BLINK /\
   fst c3 <> DOUBLE_BLINK /\
   fst c3 = NONE /\
   blink_count (snd c3) = 1%Z) /\
  (let c1 := detect_gesture default_tracker 0.2 0.05 1700000000.0 in
   let c2 := detect_gesture (snd c1) 0.2 0.05 (1700000000.0 + 0.3) in
   let c3 := detect_gesture (snd c2) 0.2 0.05 (1700000000.0 + 0.3 + 0.3) in
   (1700000000.0 + 0.3 - 1700000000.0 <? 0.5) = true /\
   fst c2 = DOUBLE_BLINK /\
   fst c3 = NONE /\
   blink_count (snd c3) = 1%Z).
Proof.
  split; cbv zeta.
  - split; [reflexivity | split; [reflexivity | ]].
    apply (double_blink_then_fresh_count 0.25 (0.2, 0.5) 0.1 0.1 0.1 0.1 0.1 0.1 1.0);
      reflexivity.
  - split; [reflexivity | ].
    destruct (double_blink_then_fresh_count 0.25 (0.2, 0.5)
                0.2 0.05 0.2 0.05 0.2 0.05 1700000000.0
                eq_refl eq_refl eq_refl eq_refl eq_refl eq_refl eq_refl)
      as (H2 & _ & H3 & H4).
    split; [exact H2 | split; [exact H3 | exact H4]].
Defined.

(** ** The wink scenario *)

(** C2 as stated fails: the left eye is closed on the frames at 1.0,
    1.125, 1.25 and 1.3, a closure spanning 0.3 seconds, and [LEFT_WINK] is
    returned on two calls, those at 1.25 and at 1.3, not on exactly one. *)
Lemma wink_returned_on_two_calls :
  let gs := fst (run_gestures default_tracker
                   (wink_scenario LeftEye 0.5 [1.0; 1.125; 1.25; 1.3] 1.5)) in
  gs = [NONE; NONE; NONE; LEFT_WINK; LEFT_WINK; NONE] /\
  count_occ GestureType_eq_dec gs LEFT_WINK <> 1%nat.
Proof. vm_compute. split; [reflexivity | discriminate]. Qed.

Section WinkScenario.

Variable e : eye.
Variable t1 : float.
Hypothesis t1_positive : (0 <? t1) = true.

Lemma open_call_step self t :
  ear_threshold self = 0.25 ->
  detect_gesture self 0.4 0.4 t =
    (NONE, set_right_eye_closed_time 0 (set_left_eye_closed_time 0 self)).
Proof.
  intros Hthr. unfold detect_gesture. rewrite Hthr.
  change (0.4 <? 0.25) with false. reflexivity.
Qed.

Lemma first_wink_call_step self :
  ear_threshold self = 0.25 ->
  wink_duration self = (0.2, 0.5) ->
  (closed_time e self =? 0) = true ->
  let '(l, r, t) := wink_call e t1 in
  fst (detect_gesture self l r t) = expected e t1 t1 /\
  closing e t1 (snd (detect_gesture self l r t)).
Proof.
  pose proof (ltb_0_neq_0 t1 t1_positive) as Hne.
  unfold closing, expected, in_wink_range.
  change (wink_duration default_tracker) with (0.2, 0.5).
  destruct self as [thr wd lt rt lb bc gh ghm fw fh]. fields.
  intros -> -> Hz. destruct e; cbn [wink_call closed_time wink_of] in *; fields;
    unfold detect_gesture; fields;
    change (0.1 <? 0.25) with true; change (0.4 <? 0.25) with false;
    fields; rewrite Hz; fields; rewrite t1_positive;
    destruct ((0.2 <=? t1 - t1) && (t1 - t1 <=? 0.5)); fields; auto.
Qed.

Lemma wink_call_step self t :
  closing e t1 self ->
  let '(l, r, t') := wink_call e t in
  fst (detect_gesture self l r t') = expected e t1 t /\
  closing e t1 (snd (detect_gesture self l r t')).
Proof.
  pose proof (ltb_0_neq_0 t1 t1_positive) as Hne.
  unfold closing, expected, in_wink_range.
  change (wink_duration default_tracker) with (0.2, 0.5).
  destruct self as [thr wd lt rt lb bc gh ghm fw fh]. fields.
  intros (-> & -> & Ht).
  destruct e; cbn [wink_call closed_time wink_of] in *; fields; subst;
    unfold detect_gesture; fields;
    change (0.1 <? 0.25) with true; change (0.4 <? 0.25) with false;
    fields; rewrite Hne; fields; rewrite t1_positive;
    destruct ((0.2 <=? t - t1) && (t - t1 <=? 0.5)); fields; auto.
Qed.

Lemma wink_calls_run t_end :
  forall ts self,
    closing e t1 self ->
    fst (run_gestures self (map (wink_call e) ts ++ [open_call t_end])) =
      map (expected e t1) ts ++ [NONE].
Proof.
  induction ts as [ | t ts IH]; intros self Hc.
  - cbn [map app run_gestures open_call].
    rewrite open_call_step by apply Hc. reflexivity.
  - pose proof (wink_call_step self t Hc) as Hs.
    cbn [map app]. destruct (wink_call e t) as [[l r] t'].
    cbn [run_gestures].
    destruct (detect_gesture self l r t') as [g s1]. cbn [fst snd] in Hs.
    destruct Hs as [-> Hc1]. specialize (IH s1 Hc1).
    destruct (run_gestures s1 _) as [gs s2]. cbn [fst] in *.
    rewrite IH. reflexivity.
Qed.

End WinkScenario.

(** C2, amended: a freshly constructed tracker is fed one frame with both
    eyes open (ratio 0.4), then frames with only eye [e] closed (ratio 0.1)
    at [t1], [ts], the first at a positive timestamp, then a frame with both
    eyes open.  The wink of [e] is returned on every closed-eye call whose
    closure duration, the timestamp minus [t1], lies in [0.2, 0.5], and
    [NONE] on every other call; the first wink is on the first call whose
    duration lies in the range. *)
Theorem wink_on_every_call_in_range (e : eye) (t_open t1 : float)
    (ts : list float) (t_end : float) :
  (0 <? t1) = true ->
  fst (run_gestures default_tracker (wink_scenario e t_open (t1 :: ts) t_end)) =
    NONE :: map (fun t => if in_wink_range default_tracker (t - t1)
                          then wink_of e else NONE) (t1 :: ts)
         ++ [NONE].
Proof.
  intros Hpos. unfold wink_scenario.
  cbn [run_gestures open_call map app].
  rewrite open_call_step by reflexivity.
  pose proof (first_wink_call_step e t1 Hpos
                (set_right_eye_closed_time 0 (set_left_eye_closed_time 0 default_tracker))
                eq_refl eq_refl) as Hs.
  assert (Hz : (closed_time e
                  (set_right_eye_closed_time 0
                     (set_left_eye_closed_time 0 default_tracker)) =? 0) = true)
    by (destruct e; reflexivity).
  specialize (Hs Hz).
  destruct (wink_call e t1) as [[l r] t']. cbn [run_gestures].
  destruct (detect_gesture _ l r t') as [g s1]. cbn [fst snd] in Hs.
  destruct Hs as [-> Hc1].
  pose proof (wink_calls_run e t1 Hpos t_end ts s1 Hc1) as Hrun.
  destruct (run_gestures s1 _) as [gs s2]. cbn [fst] in *.
  rewrite Hrun. reflexivity.
Qed.

Lemma wink_on_every_call_in_range_witness :
  (0 <? 1.0) = true /\
  fst (run_gestures default_tracker (wink_scenario RightEye 0.5 [1.0; 1.3] 1.5)) =
    [NONE; NONE; RIGHT_WINK; NONE].
Proof.
  split; [reflexivity | ].
  exact (wink_on_every_call_in_range RightEye 0.5 1.0 [1.3] 1.5 eq_refl).
Defined.

(** ** The openness ratio *)

Lemma wrap64_small (z : Z) : (- 2 ^ 63 <= z < 2 ^ 63)%Z -> wrap64 z = z.
Proof. intros H. unfold wrap64. rewrite Z.mod_small by lia. lia. Qed.

Lemma pixel_sized_bounds (p : point) :
  pixel_sized p = true ->
  (- 2 ^ 25 <= fst p <= 2 ^ 25)%Z /\ (- 2 ^ 25 <= snd p <= 2 ^ 25)%Z.
Proof.
  unfold pixel_sized. intros H. apply andb_true_iff in H. destruct H as [H1 H2].
  apply Z.leb_le in H1, H2. lia.
Qed.

(** Between two pixel coordinate pairs the distance is computed. *)
Lemma norm_diff_pixel_sized (p q : point) :
  pixel_sized p = true -> pixel_sized q = true ->
  norm_diff p q =
    Ok (sqrt (Z2F (fst p - fst q) * Z2F (fst p - fst q)
              + Z2F (snd p - snd q) * Z2F (snd p - snd q))).
Proof.
  intros Hp Hq.
  destruct (pixel_sized_bounds p Hp) as [Px Py].
  destruct (pixel_sized_bounds q Hq) as [Qx Qy].
  unfold norm_diff, in_int64.
  repeat match goal with
         | |- context [(?a <=? ?b)%Z] =>
             let E := fresh in
             assert (E : (a <=? b)%Z = true) by (apply Z.leb_le; lia); rewrite E; clear E
         | |- context [(?a <? ?b)%Z] =>
             let E := fresh in
             assert (E : (a <? b)%Z = true) by (apply Z.ltb_lt; lia); rewrite E; clear E
         end.
  cbn [andb]. rewrite !wrap64_small by lia.
  assert (Ex : (Z.abs (fst p - fst q) <=? 2 ^ 26)%Z = true) by (apply Z.leb_le; lia).
  assert (Ey : (Z.abs (snd p - snd q) <=? 2 ^ 26)%Z = true) by (apply Z.leb_le; lia).
  rewrite Ex, Ey. reflexivity.
Qed.

(** Coincident points with [int64] coordinates are at distance zero. *)
Lemma norm_diff_same (p : point) :
  in_int64 (fst p) = true -> in_int64 (snd p) = true -> norm_diff p p = Ok 0.
Proof.
  intros Hx Hy. unfold norm_diff. rewrite Hx, Hy, !Z.sub_diag. reflexivity.
Qed.




(** ** The gaze estimate *)

(** The defaults of [calculate_gaze]: a landmark list shorter than the
    highest index plus one, or a frame dimension that is not positive while
    the two subscripted landmarks exist, gives (0.5, 0.5). *)
Lemma calculate_gaze_default self (landmarks : list point) (eye_indices : list Z) :
  (landmarks_too_short landmarks eye_indices = true ->
   calculate_gaze self landmarks eye_indices = Ok (0.5, 0.5)) /\
  (forall i0 i1 p0 p1,
      index eye_indices 0 = Ok i0 -> index landmarks i0 = Ok p0 ->
      index eye_indices 1 = Ok i1 -> index landmarks i1 = Ok p1 ->
      (frame_width self <= 0 \/ frame_height self <= 0)%Z ->
      calculate_gaze self landmarks eye_indices = Ok (0.5, 0.5)).
Proof.
  unfold landmarks_too_short, calculate_gaze. split.
  - destruct (Py.max eye_indices) as [m | ex]; [ | discriminate].
    cbn [Py.bind]. intros ->. reflexivity.
  - intros i0 i1 p0 p1 E0 L0 E1 L1 Hdim.
    destruct eye_indices as [ | j0 rest]; [cbv in E0; discriminate E0 | ].
    cbn [Py.max Py.bind].
    destruct (len landmarks <? fold_left Z.max rest j0 + 1)%Z; [reflexivity | ].
    rewrite E0. cbn [Py.bind]. rewrite L0. cbn [Py.bind].
    rewrite E1. cbn [Py.bind]. rewrite L1. cbn [Py.bind].
    assert (H : (0 <? frame_width self)%Z && (0 <? frame_height self)%Z = false).
    { apply andb_false_iff. rewrite !Z.ltb_ge. exact Hdim. }
    rewrite H. reflexivity.
Qed.

(** C6, at its failing input: with a 100 by 100 frame and the second
    landmark at pixel (150, 50), to the right of the frame,
    [calculate_gaze] returns (1.5, 0.5), whose first coordinate is above 1.
    [process_frame] reaches the same path when MediaPipe places the
    landmarks at normalised abscissa 1.2: every gaze of the returned
    [EyeData] has first coordinate 1.2. *)
Theorem calculate_gaze_outside_unit_square :
  calculate_gaze (set_frame_dimensions default_tracker 100 100)
                 [(0, 0); (150, 50)]%Z [0; 1]%Z = Ok (1.5, 0.5) /\
  (1.5 <=? 1) = false /\
  option_map (fun d => (left_gaze d, right_gaze d, combined_gaze d))
    match fst (process_frame default_tracker
                 {| shape := (480, 640)%Z;
                    multi_face_landmarks := [repeat (1.2, 0.5) 478] |} 1.0) with
    | Ok d => d
    | Raise _ => None
    end = Some ((1.2, 0.5), (1.2, 0.5), (1.2, 0.5)) /\
  (1.2 <=? 1) = false.
Proof. vm_compute. repeat split. Qed.

(** ** The gaze history *)

Lemma last_n_all {A : Type} (n : nat) (l : list A) :
  (length l <= n)%nat -> last_n n l = l.
Proof.
  intros H. unfold last_n.
  replace (length l - n)%nat with 0%nat by lia. reflexivity.
Qed.

Lemma last_n_length {A : Type} (n : nat) (l : list A) :
  length (last_n n l) = Nat.min n (length l).
Proof. unfold last_n. rewrite length_skipn. lia. Qed.

Lemma last_n_app_last_n {A : Type} (n : nat) (l l' : list A) :
  last_n n (last_n n l ++ l') = last_n n (l ++ l').
Proof.
  destruct (Nat.le_gt_cases (length l) n) as [Hle | Hgt].
  - rewrite (last_n_all n l Hle). reflexivity.
  - unfold last_n at 1 3. rewrite !length_app, last_n_length.
    unfold last_n.
    replace (Nat.min n (length l) + length l' - n)%nat with (length l') by lia.
    replace (length l + length l' - n)%nat
      with (length l' + (length l - n))%nat by lia.
    rewrite <- skipn_skipn. f_equal.
    rewrite skipn_app.
    replace (length l - n - length l)%nat with 0%nat by lia.
    reflexivity.
Qed.

(** [push_gaze] touches the history only. *)
Lemma push_gaze_fields self g :
  gaze_history (push_gaze self g) =
    (let h := gaze_history self ++ [g] in
     if (gaze_history_max self <? len h)%Z then tl h else h) /\
  gaze_history_max (push_gaze self g) = gaze_history_max self /\
  ear_threshold (push_gaze self g) = ear_threshold self.
Proof. unfold push_gaze. fields. break_if; fields; auto. Qed.

Lemma push_gaze_last_n self g :
  history_bounded self ->
  gaze_history (push_gaze self g) = last_n 30 (gaze_history self ++ [g]) /\
  history_bounded (push_gaze self g).
Proof.
  intros [Hmax Hlen]. unfold history_bounded.
  destruct (push_gaze_fields self g) as [-> [-> _]].
  cbv zeta. rewrite Hmax. unfold len. rewrite length_app. cbn [length].
  destruct (30 <? Z.of_nat (length (gaze_history self) + 1))%Z eqn:E.
  - apply Z.ltb_lt in E.
    assert (H30 : length (gaze_history self) = 30%nat) by lia.
    unfold last_n. rewrite length_app. cbn [length]. rewrite H30.
    cbn [Nat.add Nat.sub skipn].
    destruct (gaze_history self) as [ | x h]; [discriminate H30 | ].
    cbn [app tl skipn length] in *.
    repeat split; try reflexivity. rewrite length_app. cbn [length]. lia.
  - apply Z.ltb_ge in E.
    rewrite last_n_all by (rewrite length_app; cbn [length]; lia).
    repeat split; try reflexivity. rewrite length_app. cbn [length]. lia.
Qed.

(** A frame without a face, or one that raises, leaves the history as it
    was; a frame with a face pushes its combined gaze. *)
Lemma process_frame_history self frame timestamp :
  gaze_history_max (snd (process_frame self frame timestamp)) = gaze_history_max self /\
  gaze_history (snd (process_frame self frame timestamp)) =
    match fst (process_frame self frame timestamp) with
    | Ok (Some d) => gaze_history (push_gaze self (combined_gaze d))
    | _ => gaze_history self
    end.
Proof.
  unfold process_frame.
  set (self1 := if (frame_width self =? 0)%Z || (frame_height self =? 0)%Z
                then _ else self).
  assert (H1 : gaze_history self1 = gaze_history self /\
               gaze_history_max self1 = gaze_history_max self)
    by (subst self1; break_if; fields; auto).
  destruct H1 as [Hh Hm]. clearbody self1.
  destruct (cvtColor_BGR2RGB frame) as [ [] | ex]; [ | cbn; auto].
  destruct (multi_face_landmarks frame) as [ | face faces]; [cbn; auto | ].
  match goal with
  | |- context [match ?m with Ok _ => _ | Raise _ => _ end] =>
      destruct m as [[[[[lms le] re] lg] rg] | ex]
  end; [ | cbn; auto].
  set (cg := ((fst lg + fst rg) / 2, (snd lg + snd rg) / 2)).
  destruct (detect_gesture_config (push_gaze self1 cg) le re timestamp)
    as (_ & _ & Hgh & Hgm & _).
  destruct (detect_gesture (push_gaze self1 cg) le re timestamp) as [g s2].
  cbn [fst snd combined_gaze] in *.
  destruct (push_gaze_fields self1 cg) as [P1 [P2 _]].
  destruct (push_gaze_fields self cg) as [Q1 _].
  rewrite Hgh, Hgm, P1, P2, Q1, Hh, Hm. auto.
Qed.

Lemma process_frame_bounded self frame timestamp :
  history_bounded self -> history_bounded (snd (process_frame self frame timestamp)).
Proof.
  intros Hb. destruct (process_frame_history self frame timestamp) as [Hm Hh].
  unfold history_bounded. rewrite Hm, Hh.
  destruct (fst (process_frame self frame timestamp)) as [[d | ] | ex];
    try exact Hb.
  destruct (push_gaze_last_n self (combined_gaze d) Hb) as [_ [_ Hlen]].
  split; [apply Hb | exact Hlen].
Qed.

Lemma reachable_history_bounded self : reachable self -> history_bounded self.
Proof.
  induction 1 as [thr wd | self c _ IH].
  - split; [reflexivity | cbn; lia].
  - destruct c as [w h | v | l r t | f t | ]; cbn [step].
    + exact IH.
    + exact IH.
    + destruct (detect_gesture_config self l r t) as (_ & _ & Hh & Hm & _).
      unfold history_bounded. rewrite Hh, Hm. exact IH.
    + apply process_frame_bounded, IH.
    + destruct IH as [Hm _]. split; [exact Hm | cbn; lia].
Qed.

Lemma run_frames_history :
  forall inputs self,
    history_bounded self ->
    gaze_history (snd (run_frames self inputs)) =
      last_n 30 (gaze_history self ++ pushed_points (fst (run_frames self inputs))).
Proof.
  induction inputs as [ | [frame timestamp] rest IH]; intros self Hb.
  - cbn. rewrite app_nil_r. symmetry. apply last_n_all, Hb.
  - cbn [run_frames].
    pose proof (process_frame_history self frame timestamp) as [_ Hh].
    pose proof (process_frame_bounded self frame timestamp Hb) as Hb1.
    destruct (process_frame self frame timestamp) as [out s1].
    cbn [fst snd] in *. specialize (IH s1 Hb1).
    destruct (run_frames s1 rest) as [outs s2]. cbn [fst snd] in *.
    rewrite IH, Hh.
    destruct out as [[d | ] | ex]; cbn [pushed_points]; try reflexivity.
    destruct (push_gaze_last_n self (combined_gaze d) Hb) as [-> _].
    rewrite last_n_app_last_n, <- app_assoc. reflexivity.
Qed.

(** C7: the gaze history of a reachable tracker holds at most 30 entries;
    a frame that yields a result when the history is full drops the oldest
    entry and appends its combined gaze; the history after any run of
    frames on a fresh tracker is the last 30 pushed points in order of
    arrival, so after 35 pushed points it is the 30 points left when the
    first 5 are dropped. *)
Theorem gaze_history_last_30 :
  (forall self, reachable self -> (length (gaze_history self) <= 30)%nat) /\
  (forall self frame timestamp d,
      reachable self ->
      length (gaze_history self) = 30%nat ->
      fst (process_frame self frame timestamp) = Ok (Some d) ->
      gaze_history (snd (process_frame self frame timestamp)) =
        tl (gaze_history self) ++ [combined_gaze d]) /\
  (forall thr wd inputs,
      let run := run_frames (init thr wd) inputs in
      gaze_history (snd run) = last_n 30 (pushed_points (fst run)) /\
      (length (pushed_points (fst run)) = 35%nat ->
       gaze_history (snd run) = skipn 5 (pushed_points (fst run)) /\
       length (gaze_history (snd run)) = 30%nat)).
Proof.
  split; [ | split].
  - intros self Hr. apply (reachable_history_bounded self Hr).
  - intros self frame timestamp d Hr Hfull Hout.
    destruct (process_frame_history self frame timestamp) as [_ Hh].
    rewrite Hh, Hout.
    destruct (push_gaze_last_n self (combined_gaze d) (reachable_history_bounded self Hr))
      as [-> _].
    unfold last_n. rewrite length_app, Hfull. cbn [length Nat.add Nat.sub].
    destruct (gaze_history self); [discriminate Hfull | reflexivity].
  - intros thr wd inputs run.
    assert (E : gaze_history (snd run) = last_n 30 (pushed_points (fst run))).
    { subst run. rewrite run_frames_history; [reflexivity | ].
      apply reachable_history_bounded, reachable_init. }
    split; [exact E | ].
    intros H35. rewrite E. unfold last_n. rewrite H35. cbn [Nat.sub].
    split; [reflexivity | ]. rewrite length_skipn, H35. reflexivity.
Qed.

Lemma run_frames_reachable :
  forall inputs self, reachable self -> reachable (snd (run_frames self inputs)).
Proof.
  induction inputs as [ | [frame timestamp] rest IH]; intros self Hr; [exact Hr | ].
  cbn [run_frames].
  pose proof (reachable_step self (ProcessFrame frame timestamp) Hr) as H1.
  cbn [step] in H1.
  destruct (process_frame self frame timestamp) as [out s1]. cbn [snd] in H1.
  specialize (IH s1 H1). destruct (run_frames s1 rest) as [outs s2]. exact IH.
Qed.

Lemma gaze_history_last_30_witness :
  let full := snd (run_frames default_tracker (sample_frames 1 30)) in
  let run := run_frames default_tracker (sample_frames 1 35) in
  (length (gaze_history full) <= 30)%nat /\
  (length (gaze_history full) = 30%nat /\
   gaze_history (snd (process_frame full (fst (sample_frame 31)) 31)) =
     tl (gaze_history full) ++ [(0.484375, 0.5)]) /\
  (length (pushed_points (fst run)) = 35%nat /\
   gaze_history (snd run) = skipn 5 (pushed_points (fst run)) /\
   length (gaze_history (snd run)) = 30%nat).
Proof.
  intros full run.
  assert (Hr : reachable full)
    by (apply run_frames_reachable, reachable_init).
  destruct gaze_history_last_30 as [H1 [H2 H3]].
  split; [exact (H1 full Hr) | split].
  - split; [vm_compute; reflexivity | ].
    refine (H2 full (fst (sample_frame 31)) 31
               {| left_ear := 0; right_ear := 0;
                  left_gaze := (0.484375, 0.5); right_gaze := (0.484375, 0.5);
                  combined_gaze := (0.484375, 0.5); is_blinking := true;
                  gesture := NONE; landmarks := repeat (310, 240)%Z 478 |}
               Hr _ _); vm_compute; reflexivity.
  - split; [vm_compute; reflexivity | ].
    exact (proj2 (H3 0.25 (0.2, 0.5) (sample_frames 1 35)) ltac:(vm_compute; reflexivity)).
Defined.

(** ** More on [detect_gesture] *)

(** The closure timers after a call, read off the state before it. *)
Lemma detect_gesture_timers self l r t :
  left_eye_closed_time (snd (detect_gesture self l r t)) =
    (if l <? ear_threshold self
     then if left_eye_closed_time self =? 0 then t else left_eye_closed_time self
     else 0) /\
  right_eye_closed_time (snd (detect_gesture self l r t)) =
    (if r <? ear_threshold self
     then if right_eye_closed_time self =? 0 then t else right_eye_closed_time self
     else 0).
Proof.
  destruct self as [thr wd lt rt lb bc gh ghm fw fh].
  gesture_cases; split; reflexivity.
Qed.

(** The returned gesture as a function of the state before the call. *)
Lemma detect_gesture_result self l r t :
  let lc := l <? ear_threshold self in
  let rc := r <? ear_threshold self in
  let lt := if left_eye_closed_time self =? 0 then t else left_eye_closed_time self in
  let rt := if right_eye_closed_time self =? 0 then t else right_eye_closed_time self in
  fst (detect_gesture self l r t) =
    if lc && negb rc then
      if (0 <? lt) && in_wink_range self (t - lt) then LEFT_WINK else NONE
    else if rc && negb lc then
      if (0 <? rt) && in_wink_range self (t - rt) then RIGHT_WINK else NONE
    else if lc && rc then
      if (t - last_blink_time self <? 0.5) && (2 <=? blink_count self + 1)%Z
      then DOUBLE_BLINK else NONE
    else NONE.
Proof.
  destruct self as [thr wd lt0 rt0 lb bc gh ghm fw fh].
  unfold in_wink_range. fields. unfold detect_gesture. fields.
  destruct (l <? thr), (r <? thr); fields;
    repeat (break_if; fields); try reflexivity; try discriminate.
Qed.

(** X1: a wink is returned only on a call where that eye alone is below
    the threshold, its timer after the call is positive and the time since
    that timer lies in the wink range; [DOUBLE_BLINK] is returned only when
    both eyes are below the threshold; with no eye below it the result is
    [NONE]. *)
Theorem gesture_requires_eye_state self l r t :
  let g := fst (detect_gesture self l r t) in
  let self' := snd (detect_gesture self l r t) in
  (g = LEFT_WINK ->
   (l <? ear_threshold self) = true /\ (r <? ear_threshold self) = false /\
   (0 <? left_eye_closed_time self') = true /\
   in_wink_range self (t - left_eye_closed_time self') = true) /\
  (g = RIGHT_WINK ->
   (r <? ear_threshold self) = true /\ (l <? ear_threshold self) = false /\
   (0 <? right_eye_closed_time self') = true /\
   in_wink_range self (t - right_eye_closed_time self') = true) /\
  (g = DOUBLE_BLINK ->
   (l <? ear_threshold self) = true /\ (r <? ear_threshold self) = true) /\
  ((l <? ear_threshold self) = false -> (r <? ear_threshold self) = false ->
   g = NONE).
Proof.
  cbv zeta.
  destruct (detect_gesture_timers self l r t) as [TL TR].
  rewrite TL, TR, (detect_gesture_result self l r t). cbv zeta.
  destruct (l <? ear_threshold self), (r <? ear_threshold self); fields;
    (split; [ | split; [ | split]]); intros Hg; intros;
    try discriminate Hg; try discriminate; try reflexivity; auto.
  all: try match type of Hg with
    | (if ?b then _ else NONE) = _ =>
        destruct b eqn:E; try discriminate Hg;
        apply andb_true_iff in E; destruct E; auto
    end.
Qed.

Lemma gesture_requires_eye_state_witness :
  let s1 := snd (detect_gesture default_tracker 0.1 0.4 1.0) in
  fst (detect_gesture s1 0.1 0.4 1.25) = LEFT_WINK /\
  (0.1 <? ear_threshold s1) = true /\ (0.4 <? ear_threshold s1) = false /\
  (0 <? left_eye_closed_time (snd (detect_gesture s1 0.1 0.4 1.25))) = true.
Proof.
  cbv zeta.
  pose proof (gesture_requires_eye_state
                (snd (detect_gesture default_tracker 0.1 0.4 1.0)) 0.1 0.4 1.25) as H.
  cbv zeta in H. destruct H as [H _].
  destruct (H eq_refl) as (A & B & C & _).
  split; [reflexivity | split; [exact A | split; [exact B | exact C]]].
Defined.

(** X2: a call on which at most one eye is below the threshold leaves the
    blink counter and the reference timestamp as they were. *)
Theorem single_eye_call_keeps_blink_state self l r t :
  (l <? ear_threshold self) && (r <? ear_threshold self) = false ->
  blink_count (snd (detect_gesture self l r t)) = blink_count self /\
  last_blink_time (snd (detect_gesture self l r t)) = last_blink_time self.
Proof.
  destruct self as [thr wd lt rt lb bc gh ghm fw fh]. fields.
  intros H. unfold detect_gesture. fields.
  destruct (l <? thr), (r <? thr); try discriminate H; fields;
    repeat (break_if; fields); split; reflexivity.
Qed.

Lemma single_eye_call_keeps_blink_state_witness :
  let s1 := snd (detect_gesture default_tracker 0.1 0.1 1.0) in
  blink_count (snd (detect_gesture s1 0.1 0.4 1.2)) = 1%Z /\
  last_blink_time (snd (detect_gesture s1 0.1 0.4 1.2)) = 1.0.
Proof.
  exact (single_eye_call_keeps_blink_state
           (snd (detect_gesture default_tracker 0.1 0.1 1.0)) 0.1 0.4 1.2 eq_refl).
Defined.

(** X3: while an eye stays below the threshold, a timer that is set keeps
    its value: the closure is timed from its first frame. *)
Theorem closed_eye_keeps_timer self l r t :
  ((l <? ear_threshold self) = true ->
   timer_set (left_eye_closed_time self) = true ->
   left_eye_closed_time (snd (detect_gesture self l r t)) = left_eye_closed_time self) /\
  ((r <? ear_threshold self) = true ->
   timer_set (right_eye_closed_time self) = true ->
   right_eye_closed_time (snd (detect_gesture self l r t)) = right_eye_closed_time self).
Proof.
  destruct (detect_gesture_timers self l r t) as [TL TR].
  unfold timer_set. split; intros Hc Hs; apply negb_true_iff in Hs.
  - rewrite TL, Hc, Hs. reflexivity.
  - rewrite TR, Hc, Hs. reflexivity.
Qed.

Lemma closed_eye_keeps_timer_witness :
  let s1 := snd (detect_gesture default_tracker 0.1 0.1 1.0) in
  left_eye_closed_time (snd (detect_gesture s1 0.1 0.4 1.2)) = 1.0 /\
  right_eye_closed_time (snd (detect_gesture s1 0.4 0.1 1.2)) = 1.0.
Proof.
  split.
  - exact (proj1 (closed_eye_keeps_timer
                    (snd (detect_gesture default_tracker 0.1 0.1 1.0)) 0.1 0.4 1.2)
             eq_refl eq_refl).
  - exact (proj2 (closed_eye_keeps_timer
                    (snd (detect_gesture default_tracker 0.1 0.1 1.0)) 0.4 0.1 1.2)
             eq_refl eq_refl).
Defined.

(** The blink counter after a call stays within 0..1 when it was. *)
Lemma detect_gesture_blink_count_range self l r t :
  (0 <= blink_count self <= 1)%Z ->
  (0 <= blink_count (snd (detect_gesture self l r t)) <= 1)%Z.
Proof.
  intros Hr.
  destruct ((l <? ear_threshold self) && (r <? ear_threshold self)) eqn:E.
  - apply andb_true_iff in E. destruct E as [El Er].
    destruct (detect_gesture_both_closed self l r t El Er) as (_ & -> & _).
    destruct (t - last_blink_time self <? 0.5); [ | lia].
    destruct (2 <=? blink_count self + 1)%Z eqn:E2; [lia | ].
    apply Z.leb_gt in E2. lia.
  - destruct (single_eye_call_keeps_blink_state self l r t E) as [-> _]. exact Hr.
Qed.

(** X4: [DOUBLE_BLINK] is never returned by two consecutive calls: the
    counter is back at 0 after it fires and the next call can at most bring
    it to 1. *)
Theorem no_consecutive_double_blink self l1 r1 t1 l2 r2 t2 :
  fst (detect_gesture self l1 r1 t1) = DOUBLE_BLINK ->
  blink_count (snd (detect_gesture self l1 r1 t1)) = 0%Z /\
  fst (detect_gesture (snd (detect_gesture self l1 r1 t1)) l2 r2 t2) <> DOUBLE_BLINK.
Proof.
  intros H1.
  assert (B0 : blink_count (snd (detect_gesture self l1 r1 t1)) = 0%Z).
  { pose proof (detect_gesture_result self l1 r1 t1) as R. cbv zeta in R.
    rewrite H1 in R.
    destruct (l1 <? ear_threshold self) eqn:El, (r1 <? ear_threshold self) eqn:Er;
      fields;
      try (match type of R with
           | _ = (if ?b then _ else _) => destruct b; discriminate R
           | _ => discriminate R
           end).
    destruct (detect_gesture_both_closed self l1 r1 t1 El Er) as (_ & -> & _).
    destruct (t1 - last_blink_time self <? 0.5); fields; [ | discriminate R].
    destruct (2 <=? blink_count self + 1)%Z; [reflexivity | discriminate R]. }
  split; [exact B0 | ].
  rewrite (detect_gesture_result _ l2 r2 t2). cbv zeta. rewrite B0.
  change (2 <=? 0 + 1)%Z with false. rewrite andb_false_r.
  repeat break_if; discriminate.
Qed.

Lemma no_consecutive_double_blink_witness :
  let s1 := snd (detect_gesture default_tracker 0.1 0.1 1.0) in
  let c2 := detect_gesture s1 0.1 0.1 1.1 in
  fst c2 = DOUBLE_BLINK /\
  blink_count (snd c2) = 0%Z /\
  fst (detect_gesture (snd c2) 0.1 0.1 1.2) <> DOUBLE_BLINK.
Proof.
  cbv zeta. split; [reflexivity | ].
  exact (no_consecutive_double_blink
           (snd (detect_gesture default_tracker 0.1 0.1 1.0))
           0.1 0.1 1.1 0.1 0.1 1.2 eq_refl).
Defined.

(** ** Subscripts and the index tables *)

Lemma index_nonneg {A : Type} (l : list A) (i : Z) :
  (0 <= i)%Z ->
  index l i = match nth_error l (Z.to_nat i) with
              | Some a => Ok a
              | None => Raise IndexError
              end.
Proof.
  intros H. unfold index.
  destruct (i <? 0)%Z eqn:E; [apply Z.ltb_lt in E; lia | ].
  rewrite E. reflexivity.
Qed.

Lemma index_in_range {A : Type} (l : list A) (i : Z) :
  (0 <= i < len l)%Z -> exists a, index l i = Ok a.
Proof.
  intros [H0 H1]. rewrite (index_nonneg l i H0).
  destruct (nth_error l (Z.to_nat i)) as [a | ] eqn:E; [exists a; reflexivity | ].
  apply nth_error_None in E. unfold len in H1. lia.
Qed.


Lemma fold_left_max_bounds (l : list Z) :
  forall x, (x <= fold_left Z.max l x)%Z /\
            (forall i, In i l -> (i <= fold_left Z.max l x)%Z).
Proof.
  induction l as [ | y l IH]; intros x; cbn [fold_left].
  - split; [lia | intros i []].
  - destruct (IH (Z.max x y)) as [H1 H2]. split; [lia | ].
    intros i [-> | Hin]; [lia | exact (H2 i Hin)].
Qed.

Lemma max_bounds (l : list Z) (m : Z) :
  Py.max l = Ok m -> forall i, In i l -> (i <= m)%Z.
Proof.
  destruct l as [ | x l]; [discriminate | ].
  cbn [Py.max]. intros E i Hin. injection E as <-.
  destruct (fold_left_max_bounds l x) as [H1 H2].
  destruct Hin as [<- | Hin]; [exact H1 | exact (H2 i Hin)].
Qed.

(** After the length guard has passed, a non-negative index of the table
    is a valid subscript of the landmark list. *)
Lemma guarded_lookup (landmarks : list point) (eye_indices : list Z) (m i : Z) :
  Py.max eye_indices = Ok m ->
  (len landmarks <? m + 1)%Z = false ->
  In i eye_indices -> (0 <= i)%Z ->
  exists p, index landmarks i = Ok p.
Proof.
  intros Hm Hg Hin H0. apply index_in_range.
  apply Z.ltb_ge in Hg. pose proof (max_bounds eye_indices m Hm i Hin). lia.
Qed.

Ltac lookup Hm Hg :=
  match goal with
  | |- context [index ?lms ?i] =>
      lazymatch lms with
      | _ :: _ => fail
      | _ =>
          let p := fresh "p" in
          let E := fresh "E" in
          destruct (guarded_lookup lms _ _ i Hm Hg) as [p E];
          [cbn [In]; tauto | assumption | rewrite E; cbn [Py.bind]]
      end
  end.

Lemma index_In {A : Type} (l : list A) (i : Z) (a : A) :
  index l i = Ok a -> In a l.
Proof.
  unfold index.
  destruct ((if (i <? 0)%Z then (i + len l)%Z else i) <? 0)%Z; [discriminate | ].
  destruct (nth_error l _) as [x | ] eqn:E; [ | discriminate].
  intros H. injection H as <-. exact (nth_error_In _ _ E).
Qed.

Lemma truediv_raises (a b : Z) (e : exn) :
  truediv a b = Raise e ->
  (e = ZeroDivisionError /\ b = 0%Z) \/ e = OverflowError.
Proof.
  unfold truediv.
  destruct (b =? 0)%Z eqn:Eb.
  - intros H. injection H as <-. left. split; [reflexivity | apply Z.eqb_eq, Eb].
  - destruct ((Z.abs a <? 2 ^ 53)%Z && (Z.abs b <? 2 ^ 53)%Z); [discriminate | ].
    destruct (SFdiv_core_binary prec emax (Z.abs a) 0 (Z.abs b) 0) as [[q ex] l].
    destruct (binary_round_aux prec emax _ q ex l); try discriminate.
    intros H. injection H as <-. right. reflexivity.
Qed.

(** With six non-negative indices [calculate_ear] raises nothing of its
    own: whatever it does not return comes from the three distances. *)
Lemma calculate_ear_six_indices (landmarks : list point) (eye_indices : list Z) :
  Forall (fun i => 0 <= i)%Z eye_indices ->
  (6 <= length eye_indices)%nat ->
  calculate_ear landmarks eye_indices = Ok 0 \/
  exists p1 p2 p3 p4 p5 p6,
    In p1 landmarks /\ In p2 landmarks /\ In p3 landmarks /\
    In p4 landmarks /\ In p5 landmarks /\ In p6 landmarks /\
    calculate_ear landmarks eye_indices =
      (vertical_1 <- norm_diff p2 p6 ;;
       vertical_2 <- norm_diff p3 p5 ;;
       horizontal <- norm_diff p1 p4 ;;
       if horizontal =? 0 then Ok 0
       else Ok ((vertical_1 + vertical_2) / (2 * horizontal))).
Proof.
  intros Hnn Hlen.
  destruct eye_indices as [ | i0 [ | i1 [ | i2 [ | i3 [ | i4 [ | i5 rest]]]]]];
    cbn [length] in Hlen; try lia.
  repeat match goal with
         | H : Forall _ (_ :: _) |- _ => inversion H; clear H; subst
         end.
  unfold calculate_ear.
  destruct (Py.max (i0 :: i1 :: i2 :: i3 :: i4 :: i5 :: rest)) as [m | ex] eqn:Hm;
    [ | discriminate Hm].
  cbn [Py.bind].
  destruct (len landmarks <? m + 1)%Z eqn:Hg; [left; reflexivity | right].
  unfold ear_points.
  change (index (i0 :: i1 :: i2 :: i3 :: i4 :: i5 :: rest) 0) with (Ok i0).
  change (index (i0 :: i1 :: i2 :: i3 :: i4 :: i5 :: rest) 1) with (Ok i1).
  change (index (i0 :: i1 :: i2 :: i3 :: i4 :: i5 :: rest) 2) with (Ok i2).
  change (index (i0 :: i1 :: i2 :: i3 :: i4 :: i5 :: rest) 3) with (Ok i3).
  change (index (i0 :: i1 :: i2 :: i3 :: i4 :: i5 :: rest) 4) with (Ok i4).
  change (index (i0 :: i1 :: i2 :: i3 :: i4 :: i5 :: rest) 5) with (Ok i5).
  cbn [Py.bind].
  destruct (guarded_lookup landmarks _ m i0 Hm Hg) as [p1 E1]; [cbn [In]; tauto | assumption | ].
  destruct (guarded_lookup landmarks _ m i1 Hm Hg) as [p2 E2]; [cbn [In]; tauto | assumption | ].
  destruct (guarded_lookup landmarks _ m i2 Hm Hg) as [p3 E3]; [cbn [In]; tauto | assumption | ].
  destruct (guarded_lookup landmarks _ m i3 Hm Hg) as [p4 E4]; [cbn [In]; tauto | assumption | ].
  destruct (guarded_lookup landmarks _ m i4 Hm Hg) as [p5 E5]; [cbn [In]; tauto | assumption | ].
  destruct (guarded_lookup landmarks _ m i5 Hm Hg) as [p6 E6]; [cbn [In]; tauto | assumption | ].
  rewrite E1, E2, E3, E4, E5, E6. cbn [Py.bind].
  exists p1, p2, p3, p4, p5, p6.
  repeat split; eauto using index_In.
Qed.

Lemma calculate_ear_raises (landmarks : list point) (eye_indices : list Z) (e : exn) :
  Forall (fun i => 0 <= i)%Z eye_indices ->
  (6 <= length eye_indices)%nat ->
  calculate_ear landmarks eye_indices = Raise e ->
  e = NumpyOutOfRange /\ forallb pixel_sized landmarks = false.
Proof.
  intros Hnn Hlen H.
  destruct (calculate_ear_six_indices landmarks eye_indices Hnn Hlen)
    as [E | (p1 & p2 & p3 & p4 & p5 & p6 & I1 & I2 & I3 & I4 & I5 & I6 & E)];
    rewrite E in H; [discriminate H | ].
  assert (Hn : forall p q x, norm_diff p q = Raise x -> x = NumpyOutOfRange).
  { intros p q x. unfold norm_diff. repeat break_if; congruence. }
  split.
  - destruct (norm_diff p2 p6) eqn:N1; cbn [Py.bind] in H;
      [ | injection H as <-; eauto].
    destruct (norm_diff p3 p5) eqn:N2; cbn [Py.bind] in H;
      [ | injection H as <-; eauto].
    destruct (norm_diff p1 p4) eqn:N3; cbn [Py.bind] in H;
      [ | injection H as <-; eauto].
    destruct (_ =? 0); discriminate H.
  - destruct (forallb pixel_sized landmarks) eqn:F; [ | reflexivity].
    exfalso. rewrite forallb_forall in F.
    rewrite !norm_diff_pixel_sized in H by auto. cbn [Py.bind] in H.
    destruct (_ =? 0); discriminate H.
Qed.

(** With two non-negative indices [calculate_gaze] raises nothing but the
    [OverflowError] of its division. *)
Lemma calculate_gaze_raises self (landmarks : list point) (eye_indices : list Z)
    (e : exn) :
  Forall (fun i => 0 <= i)%Z eye_indices ->
  (2 <= length eye_indices)%nat ->
  calculate_gaze self landmarks eye_indices = Raise e ->
  e = OverflowError.
Proof.
  intros Hnn Hlen.
  destruct eye_indices as [ | i0 [ | i1 rest]]; cbn [length] in Hlen; try lia.
  repeat match goal with
         | H : Forall _ (_ :: _) |- _ => inversion H; clear H; subst
         end.
  unfold calculate_gaze.
  destruct (Py.max (i0 :: i1 :: rest)) as [m | ex] eqn:Hm; [ | discriminate Hm].
  cbn [Py.bind].
  destruct (len landmarks <? m + 1)%Z eqn:Hg; [discriminate | ].
  change (index (i0 :: i1 :: rest) 0) with (Ok i0).
  change (index (i0 :: i1 :: rest) 1) with (Ok i1).
  cbn [Py.bind]. do 2 lookup Hm Hg.
  destruct ((0 <? frame_width self)%Z && (0 <? frame_height self)%Z) eqn:Hd;
    [ | discriminate].
  apply andb_true_iff in Hd. destruct Hd as [Hw Hh].
  apply Z.ltb_lt in Hw, Hh.
  destruct (truediv (fst p0) (frame_width self)) as [gx | ex] eqn:Ex; cbn [Py.bind].
  - destruct (truediv (snd p0) (frame_height self)) as [gy | ex] eqn:Ey;
      cbn [Py.bind]; [discriminate | ].
    intros H. injection H as <-.
    destruct (truediv_raises _ _ _ Ey) as [[_ Z0] | ->]; [lia | reflexivity].
  - intros H. injection H as <-.
    destruct (truediv_raises _ _ _ Ex) as [[_ Z0] | ->]; [lia | reflexivity].
Qed.

(** X5: with an index list of at least six non-negative entries and
    landmarks that are pixel coordinate pairs (at most 2^25 in magnitude),
    [calculate_ear] returns a ratio: it raises nothing.  With an index list
    of at least two non-negative entries [calculate_gaze] raises nothing but
    [OverflowError], for every landmark list and every frame size; it never
    raises [IndexError], [ValueError] or [ZeroDivisionError]. *)
Theorem metrics_never_raise self (landmarks : list point) (eye_indices : list Z) :
  Forall (fun i => 0 <= i)%Z eye_indices ->
  ((6 <= length eye_indices)%nat ->
   forallb pixel_sized landmarks = true ->
   exists ear, calculate_ear landmarks eye_indices = Ok ear) /\
  ((2 <= length eye_indices)%nat ->
   forall e, calculate_gaze self landmarks eye_indices = Raise e ->
             e = OverflowError).
Proof.
  intros Hnn. split.
  - intros Hlen Hpx.
    destruct (calculate_ear landmarks eye_indices) as [ear | e] eqn:E;
      [exists ear; reflexivity | ].
    destruct (calculate_ear_raises _ _ _ Hnn Hlen E) as [_ F]. congruence.
  - intros Hlen e. apply calculate_gaze_raises; assumption.
Qed.

Lemma index_tables_nonneg :
  Forall (fun i => 0 <= i)%Z LEFT_EAR_INDICES /\
  Forall (fun i => 0 <= i)%Z RIGHT_EAR_INDICES /\
  Forall (fun i => 0 <= i)%Z LEFT_EYE_INDICES /\
  Forall (fun i => 0 <= i)%Z RIGHT_EYE_INDICES.
Proof. repeat split; repeat constructor; discriminate. Qed.

Lemma metrics_never_raise_witness :
  (exists ear, calculate_ear (repeat (3, 4)%Z 500) LEFT_EAR_INDICES = Ok ear) /\
  (forall e,
      calculate_gaze (set_frame_dimensions default_tracker 1 1)
        (repeat (10 ^ 400, 4)%Z 500) RIGHT_EYE_INDICES = Raise e ->
      e = OverflowError) /\
  calculate_gaze (set_frame_dimensions default_tracker 1 1)
    (repeat (10 ^ 400, 4)%Z 500) RIGHT_EYE_INDICES = Raise OverflowError.
Proof.
  split; [ | split].
  - apply (metrics_never_raise default_tracker (repeat (3, 4)%Z 500) LEFT_EAR_INDICES).
    + apply index_tables_nonneg.
    + cbn. lia.
    + vm_compute. reflexivity.
  - apply (metrics_never_raise (set_frame_dimensions default_tracker 1 1)
             (repeat (10 ^ 400, 4)%Z 500) RIGHT_EYE_INDICES).
    + apply index_tables_nonneg.
    + cbn. lia.
  - vm_compute. reflexivity.
Defined.

(** Evaluate a subscript of an explicit index table. *)
Ltac table_lookup :=
  match goal with
  | |- context [index (?x :: ?l) ?k] =>
      let v := eval cbv in (index (x :: l) k) in
      change (index (x :: l) k) with v; cbn [Py.bind]
  end.

(** X6: malformed index tables.  An empty table makes both metrics raise
    [ValueError] (from [max]); a table of one to five non-negative entries
    makes [calculate_ear] raise [IndexError] once the length guard has
    passed, and a table of one entry does the same to [calculate_gaze]. *)
Theorem malformed_index_table_raises self (landmarks : list point) (eye_indices : list Z) :
  (calculate_ear landmarks [] = Raise ValueError /\
   calculate_gaze self landmarks [] = Raise ValueError) /\
  (Forall (fun i => 0 <= i)%Z eye_indices ->
   landmarks_too_short landmarks eye_indices = false ->
   ((1 <= length eye_indices < 6)%nat ->
    calculate_ear landmarks eye_indices = Raise IndexError) /\
   (length eye_indices = 1%nat ->
    calculate_gaze self landmarks eye_indices = Raise IndexError)).
Proof.
  split; [split; reflexivity | ].
  intros Hnn Hshort. unfold landmarks_too_short in Hshort.
  split; intros Hlen.
  - destruct eye_indices as [ | i0 [ | i1 [ | i2 [ | i3 [ | i4 [ | i5 rest]]]]]];
      cbn [length] in Hlen; try lia;
      repeat match goal with
             | H : Forall _ (_ :: _) |- _ => inversion H; clear H; subst
             end;
      unfold calculate_ear;
      match goal with
      | |- context [Py.max ?l] => destruct (Py.max l) as [m | ex] eqn:Hm; [ | discriminate Hm]
      end;
      cbn [Py.bind]; rewrite Hshort; unfold ear_points;
      repeat first [table_lookup | lookup Hm Hshort]; reflexivity.
  - destruct eye_indices as [ | i0 [ | i1 rest]]; cbn [length] in Hlen; try lia.
    inversion Hnn; subst. unfold calculate_gaze.
    destruct (Py.max [i0]) as [m | ex] eqn:Hm; [ | discriminate Hm].
    cbn [Py.bind]. rewrite Hshort.
    repeat first [table_lookup | lookup Hm Hshort]; reflexivity.
Qed.

Lemma malformed_index_table_raises_witness :
  calculate_ear [(1, 1); (2, 2); (3, 3)]%Z [0; 1; 2]%Z = Raise IndexError /\
  calculate_gaze default_tracker [(1, 1); (2, 2)]%Z [1]%Z = Raise IndexError.
Proof.
  split.
  - apply (proj2 (malformed_index_table_raises default_tracker
                    [(1, 1); (2, 2); (3, 3)]%Z [0; 1; 2]%Z)).
    + repeat constructor; discriminate.
    + reflexivity.
    + cbn. lia.
  - apply (proj2 (malformed_index_table_raises default_tracker
                    [(1, 1); (2, 2)]%Z [1]%Z)).
    + repeat constructor; discriminate.
    + reflexivity.
    + reflexivity.
Defined.






(** ** More on [process_frame] *)

(** The outcomes of [process_frame], with the instance after lines
    209-210, where the frame size is taken from the frame when either stored
    dimension is zero. *)
Lemma process_frame_cases self frame t :
  let self1 :=
    if (frame_width self =? 0)%Z || (frame_height self =? 0)%Z
    then set_frame_dimensions self (snd (shape frame)) (fst (shape frame))
    else self in
  (multi_face_landmarks frame = [] /\
   process_frame self frame t = (Ok None, self1)) \/
  (exists e, process_frame self frame t = (Raise e, self1)) \/
  (exists face rest lms le re lg rg,
      multi_face_landmarks frame = face :: rest /\
      mapM (to_pixel self1) face = Ok lms /\
      calculate_ear lms LEFT_EAR_INDICES = Ok le /\
      calculate_ear lms RIGHT_EAR_INDICES = Ok re /\
      calculate_gaze self1 lms LEFT_EYE_INDICES = Ok lg /\
      calculate_gaze self1 lms RIGHT_EYE_INDICES = Ok rg /\
      let cg := ((fst lg + fst rg) / 2, (snd lg + snd rg) / 2) in
      let s2 := push_gaze self1 cg in
      process_frame self frame t =
        (Ok (Some {| left_ear := le; right_ear := re;
                     left_gaze := lg; right_gaze := rg;
                     combined_gaze := cg;
                     is_blinking := (le <? ear_threshold s2) || (re <? ear_threshold s2);
                     gesture := fst (detect_gesture s2 le re t);
                     landmarks := lms |}),
         snd (detect_gesture s2 le re t))).
Proof.
  intros self1. unfold process_frame. fold self1. clearbody self1.
  destruct (cvtColor_BGR2RGB frame) as [ [] | e]; [ | right; left; eauto].
  destruct (multi_face_landmarks frame) as [ | face rest]; [left; auto | right].
  destruct (mapM (to_pixel self1) face) as [lms | e] eqn:Em;
    cbn [Py.bind]; [ | left; eauto].
  destruct (calculate_ear lms LEFT_EAR_INDICES) as [le | e] eqn:Ele;
    cbn [Py.bind]; [ | left; eauto].
  destruct (calculate_ear lms RIGHT_EAR_INDICES) as [re | e] eqn:Ere;
    cbn [Py.bind]; [ | left; eauto].
  destruct (calculate_gaze self1 lms LEFT_EYE_INDICES) as [lg | e] eqn:Elg;
    cbn [Py.bind]; [ | left; eauto].
  destruct (calculate_gaze self1 lms RIGHT_EYE_INDICES) as [rg | e] eqn:Erg;
    cbn [Py.bind]; [ | left; eauto].
  right. exists face, rest, lms, le, re, lg, rg. cbv zeta.
  destruct (detect_gesture _ le re t) as [g s3]. cbn [fst snd].
  repeat split; try reflexivity; assumption.
Qed.






(** X9: an [EyeData] that reports a gesture also reports blinking: a wink
    or a double blink needs at least one ratio below the threshold. *)
Theorem gesture_implies_blinking self frame t d :
  fst (process_frame self frame t) = Ok (Some d) ->
  gesture d <> NONE ->
  is_blinking d = true.
Proof.
  intros H Hg.
  destruct (process_frame_cases self frame t)
    as [[_ E] | [(e' & E) | (face & rest & lms & le & re & lg & rg & _ & _ & _ & _ & _ & _ & E)]];
    cbv zeta in E; rewrite E in H; cbn [fst] in H; try discriminate H.
  injection H as <-. cbn [gesture is_blinking] in *.
  match goal with
  | |- (le <? ear_threshold ?s) || (re <? ear_threshold ?s) = true =>
      pose proof (gesture_requires_eye_state s le re t) as G; cbv zeta in G;
      destruct G as (_ & _ & _ & G);
      destruct (le <? ear_threshold s); [reflexivity | ];
      destruct (re <? ear_threshold s); [reflexivity | ]
  end.
  exfalso. apply Hg. apply G; reflexivity.
Qed.

Lemma gesture_implies_blinking_witness :
  let frame := {| shape := (100, 100)%Z;
                  multi_face_landmarks := [[(0.5, 0.5)]] |} in
  let s1 := snd (process_frame default_tracker frame 1.0) in
  exists d,
    fst (process_frame s1 frame 1.25) = Ok (Some d) /\
    gesture d = DOUBLE_BLINK /\ is_blinking d = true.
Proof.
  intros frame s1.
  destruct (fst (process_frame s1 frame 1.25)) as [[d | ] | ex] eqn:E;
    try (vm_compute in E; discriminate E).
  assert (G : gesture d = DOUBLE_BLINK)
    by (vm_compute in E; injection E as <-; reflexivity).
  exists d. split; [reflexivity | split; [exact G | ]].
  apply (gesture_implies_blinking s1 frame 1.25 d E).
  rewrite G. discriminate.
Defined.

(** [push_gaze] leaves the gesture state and the frame size alone. *)
Lemma push_gaze_state self g :
  left_eye_closed_time (push_gaze self g) = left_eye_closed_time self /\
  right_eye_closed_time (push_gaze self g) = right_eye_closed_time self /\
  last_blink_time (push_gaze self g) = last_blink_time self /\
  blink_count (push_gaze self g) = blink_count self /\
  wink_duration (push_gaze self g) = wink_duration self /\
  frame_width (push_gaze self g) = frame_width self /\
  frame_height (push_gaze self g) = frame_height self.
Proof. unfold push_gaze. fields. break_if; fields; repeat split. Qed.

(** X10: in every reachable state the blink counter is 0 or 1: it counts
    up to the second closure, which resets it. *)
Theorem blink_count_zero_or_one self :
  reachable self -> blink_count self = 0%Z \/ blink_count self = 1%Z.
Proof.
  intros Hr.
  assert (H : (0 <= blink_count self <= 1)%Z); [ | lia].
  induction Hr as [thr wd | self c _ IH]; [cbn; lia | ].
  destruct c as [w h | v | l r t | f t | ]; cbn [step]; fields; try exact IH.
  - apply detect_gesture_blink_count_range, IH.
  - destruct (process_frame_cases self f t)
      as [[_ E] | [(e' & E) | (face & rest & lms & le & re & lg & rg & _ & _ & _ & _ & _ & _ & E)]];
      cbv zeta in E; rewrite E; cbn [snd].
    + break_if; fields; exact IH.
    + break_if; fields; exact IH.
    + apply detect_gesture_blink_count_range.
      match goal with
      | |- context [push_gaze ?s ?g] =>
          destruct (push_gaze_state s g) as (_ & _ & _ & -> & _)
      end.
      break_if; fields; exact IH.
  - cbn. lia.
Qed.

Lemma run_gestures_reachable :
  forall calls self, reachable self -> reachable (snd (run_gestures self calls)).
Proof.
  induction calls as [ | [[l r] t] rest IH]; intros self Hr; [exact Hr | ].
  cbn [run_gestures].
  pose proof (reachable_step self (DetectGesture l r t) Hr) as H1.
  cbn [step] in H1.
  destruct (detect_gesture self l r t) as [g s1]. cbn [snd] in H1.
  specialize (IH s1 H1). destruct (run_gestures s1 rest) as [gs s2]. exact IH.
Qed.

Lemma blink_count_zero_or_one_witness :
  let s := snd (run_gestures default_tracker
                  [(0.1, 0.1, 1.0); (0.1, 0.1, 1.1); (0.1, 0.1, 1.2)]) in
  blink_count s = 0%Z \/ blink_count s = 1%Z.
Proof.
  intros s. apply (blink_count_zero_or_one s).
  apply run_gestures_reachable, reachable_init.
Defined.

(** X11: the frame size is latched.  With both stored dimensions non-zero
    no run of [process_frame] calls changes them, whatever the shapes of the
    frames; with one of them zero, a call stores the frame's columns as
    width and rows as height, face or no face. *)
Theorem frame_dimensions_latched :
  (forall inputs self,
      frame_width self <> 0%Z -> frame_height self <> 0%Z ->
      frame_width (snd (run_frames self inputs)) = frame_width self /\
      frame_height (snd (run_frames self inputs)) = frame_height self) /\
  (forall self frame t,
      frame_width self = 0%Z \/ frame_height self = 0%Z ->
      frame_width (snd (process_frame self frame t)) = snd (shape frame) /\
      frame_height (snd (process_frame self frame t)) = fst (shape frame)).
Proof.
  assert (Hstep : forall self frame t,
             let self1 :=
               if (frame_width self =? 0)%Z || (frame_height self =? 0)%Z
               then set_frame_dimensions self (snd (shape frame)) (fst (shape frame))
               else self in
             frame_width (snd (process_frame self frame t)) = frame_width self1 /\
             frame_height (snd (process_frame self frame t)) = frame_height self1).
  { intros self frame t self1.
    destruct (process_frame_cases self frame t)
      as [[_ E] | [(e' & E) | (face & rest & lms & le & re & lg & rg & _ & _ & _ & _ & _ & _ & E)]];
      cbv zeta in E; fold self1 in E; rewrite E; cbn [snd]; auto.
    match goal with
    | |- context [detect_gesture ?s le re t] =>
        destruct (detect_gesture_config s le re t) as (_ & _ & _ & _ & -> & ->)
    end.
    destruct (push_gaze_state self1 ((fst lg + fst rg) / 2, (snd lg + snd rg) / 2))
      as (_ & _ & _ & _ & _ & -> & ->).
    auto. }
  split.
  - induction inputs as [ | [frame t] rest IH]; intros self Hw Hh; [auto | ].
    cbn [run_frames].
    pose proof (Hstep self frame t) as [Sw Sh]. cbv zeta in Sw, Sh.
    apply Z.eqb_neq in Hw as Ew. apply Z.eqb_neq in Hh as Eh.
    rewrite Ew, Eh in Sw, Sh. cbn [orb] in Sw, Sh.
    destruct (process_frame self frame t) as [out s1]. cbn [snd] in Sw, Sh.
    specialize (IH s1). rewrite Sw, Sh in IH. specialize (IH Hw Hh).
    destruct (run_frames s1 rest) as [outs s2]. exact IH.
  - intros self frame t Hz.
    pose proof (Hstep self frame t) as [Sw Sh]. cbv zeta in Sw, Sh.
    assert (E : (frame_width self =? 0)%Z || (frame_height self =? 0)%Z = true).
    { apply orb_true_iff. rewrite !Z.eqb_eq. exact Hz. }
    rewrite E in Sw, Sh. fields. auto.
Qed.

Lemma frame_dimensions_latched_witness :
  let big := {| shape := (1080, 1920)%Z; multi_face_landmarks := [[(0.5, 0.5)]] |} in
  let small := {| shape := (480, 640)%Z; multi_face_landmarks := [] |} in
  let s1 := snd (process_frame default_tracker small 1.0) in
  (frame_width s1 = 640%Z /\ frame_height s1 = 480%Z) /\
  (frame_width (snd (run_frames s1 [(big, 2.0); (small, 3.0); (big, 4.0)])) = 640%Z /\
   frame_height (snd (run_frames s1 [(big, 2.0); (small, 3.0); (big, 4.0)])) = 480%Z).
Proof.
  intros big small s1. destruct frame_dimensions_latched as [H1 H2]. split.
  - apply (H2 default_tracker small 1.0). left. reflexivity.
  - apply (H1 [(big, 2.0); (small, 3.0); (big, 4.0)] s1); discriminate.
Defined.

Lemma eqb_0_not_pos (t : float) : (t =? 0) = true -> (0 <? t) = false.
Proof.
  rewrite ltb_spec, eqb_spec.
  unfold SFltb, SFeqb.
  rewrite (SFcompare_antisym (Prim2SF t) (Prim2SF 0)).
  destruct (SFcompare (Prim2SF t) (Prim2SF 0)) as [ [ | | ] | ];
    cbn; congruence.
Qed.

(** X12: with every timestamp equal to zero, which is what
    [process_frame] receives when its [timestamp] argument is left at the
    default 0.0, no frame of any run on a freshly constructed tracker
    reports a wink: the closure timers never leave the unset value. *)
Theorem zero_timestamps_never_wink thr wd (inputs : list (Frame * float)) :
  Forall (fun ft => (snd ft =? 0) = true) inputs ->
  Forall (fun out => match out with
                     | Ok (Some d) => gesture d <> LEFT_WINK /\ gesture d <> RIGHT_WINK
                     | _ => True
                     end)
         (fst (run_frames (init thr wd) inputs)).
Proof.
  assert (Hgen : forall inputs self,
             (left_eye_closed_time self =? 0) = true ->
             (right_eye_closed_time self =? 0) = true ->
             Forall (fun ft => (snd ft =? 0) = true) inputs ->
             Forall (fun out => match out with
                                | Ok (Some d) =>
                                    gesture d <> LEFT_WINK /\ gesture d <> RIGHT_WINK
                                | _ => True
                                end)
                    (fst (run_frames self inputs))).
  { clear inputs. induction inputs as [ | [frame t] rest IH];
      intros self HL HR Hall; [constructor | ].
    inversion Hall as [ | x xs Ht Hrest]; subst. cbn [snd] in Ht.
    cbn [run_frames].
    assert (Hstep :
      (left_eye_closed_time (snd (process_frame self frame t)) =? 0) = true /\
      (right_eye_closed_time (snd (process_frame self frame t)) =? 0) = true /\
      match fst (process_frame self frame t) with
      | Ok (Some d) => gesture d <> LEFT_WINK /\ gesture d <> RIGHT_WINK
      | _ => True
      end).
    { destruct (process_frame_cases self frame t)
        as [[_ E] | [(e' & E) | (face & rest' & lms & le & re & lg & rg & _ & _ & _ & _ & _ & _ & E)]];
        cbv zeta in E; rewrite E; cbn [fst snd gesture];
        [break_if; fields; auto | break_if; fields; auto | ].
      match goal with
      | |- context [detect_gesture ?s le re t] =>
          set (s2 := s);
          assert (HL2 : (left_eye_closed_time s2 =? 0) = true)
            by (subst s2;
                match goal with
                | |- context [push_gaze ?a ?b] =>
                    destruct (push_gaze_state a b) as (-> & _)
                end; break_if; fields; exact HL);
          assert (HR2 : (right_eye_closed_time s2 =? 0) = true)
            by (subst s2;
                match goal with
                | |- context [push_gaze ?a ?b] =>
                    destruct (push_gaze_state a b) as (_ & -> & _)
                end; break_if; fields; exact HR);
          clearbody s2
      end.
      destruct (detect_gesture_timers s2 le re t) as [-> ->].
      rewrite (detect_gesture_result s2 le re t). cbv zeta.
      rewrite HL2, HR2, (eqb_0_not_pos t Ht). cbn [andb].
      repeat split.
      - destruct (le <? ear_threshold s2); [exact Ht | reflexivity].
      - destruct (re <? ear_threshold s2); [exact Ht | reflexivity].
      - repeat break_if; discriminate.
      - repeat break_if; discriminate. }
    destruct (process_frame self frame t) as [out s1]. cbn [fst snd] in Hstep.
    destruct Hstep as (HL1 & HR1 & Hout).
    specialize (IH s1 HL1 HR1 Hrest).
    destruct (run_frames s1 rest) as [outs s3]. cbn [fst] in *.
    constructor; assumption. }
  apply Hgen; reflexivity.
Qed.

Lemma zero_timestamps_never_wink_witness :
  let closed_left := {| shape := (100, 100)%Z;
                        multi_face_landmarks := [[(0.5, 0.5)]] |} in
  Forall (fun out => match out with
                     | Ok (Some d) => gesture d <> LEFT_WINK /\ gesture d <> RIGHT_WINK
                     | _ => True
                     end)
         (fst (run_frames default_tracker [(closed_left, 0); (closed_left, 0)])).
Proof.
  intros closed_left.
  apply (zero_timestamps_never_wink 0.25 (0.2, 0.5)
           [(closed_left, 0); (closed_left, 0)]).
  repeat constructor.
Defined.

(** ** The data logger *)

Lemma flush_buffer_fields (self : DataLogger.t) :
  DataLogger.session_id (DataLogger._flush_buffer self) = DataLogger.session_id self /\
  DataLogger.buffer_size (DataLogger._flush_buffer self) = DataLogger.buffer_size self /\
  DataLogger.data_buffer (DataLogger._flush_buffer self) = [] /\
  DataLogger.csv_rows (DataLogger._flush_buffer self) = DataLogger.logged self.
Proof.
  unfold DataLogger._flush_buffer, DataLogger.logged.
  destruct (DataLogger.data_buffer self) as [ | x b] eqn:E; cbn.
  - rewrite E, app_nil_r. auto.
  - auto.
Qed.

Lemma append_entry_fields (self : DataLogger.t) (e : LogEntry.t) :
  DataLogger.session_id (DataLogger.append_entry self e) = DataLogger.session_id self /\
  DataLogger.buffer_size (DataLogger.append_entry self e) = DataLogger.buffer_size self /\
  DataLogger.logged (DataLogger.append_entry self e) = DataLogger.logged self ++ [e] /\
  DataLogger.data_buffer (DataLogger.append_entry self e) =
    (if (DataLogger.buffer_size self <=? len (DataLogger.data_buffer self ++ [e]))%Z
     then [] else DataLogger.data_buffer self ++ [e]).
Proof.
  unfold DataLogger.append_entry. cbv zeta. cbn [DataLogger.buffer_size DataLogger.data_buffer].
  destruct (DataLogger.buffer_size self <=? len (DataLogger.data_buffer self ++ [e]))%Z.
  - match goal with
    | |- context [DataLogger._flush_buffer ?s] =>
        destruct (flush_buffer_fields s) as (E1 & E2 & E3 & E4)
    end.
    unfold DataLogger.logged at 1. rewrite E1, E2, E3, E4, app_nil_r.
    unfold DataLogger.logged. cbn. rewrite app_assoc. auto.
  - unfold DataLogger.logged. cbn. rewrite app_assoc. auto.
Qed.

Lemma logger_step_fields (self : DataLogger.t) (c : DataLogger.call) :
  DataLogger.session_id (DataLogger.step self c) = DataLogger.session_id self /\
  DataLogger.buffer_size (DataLogger.step self c) = DataLogger.buffer_size self /\
  DataLogger.logged (DataLogger.step self c) =
    DataLogger.logged self ++ DataLogger.entries_of self [c].
Proof.
  destruct c as [now d n fps dur | now n fps | ]; cbn [DataLogger.step DataLogger.entries_of flat_map];
    rewrite ?app_nil_r.
  - unfold DataLogger.log_eye_data.
    destruct (append_entry_fields self (DataLogger.eye_data_entry self now d n fps dur))
      as (E1 & E2 & E3 & _). auto.
  - unfold DataLogger.log_no_face_detected.
    destruct (append_entry_fields self (DataLogger.no_face_entry self now n fps))
      as (E1 & E2 & E3 & _). auto.
  - unfold DataLogger.close.
    destruct (flush_buffer_fields self) as (E1 & E2 & E3 & E4).
    unfold DataLogger.logged at 1. rewrite E3, E4, app_nil_r. auto.
Qed.

Lemma entries_of_session (s1 s2 : DataLogger.t) (calls : list DataLogger.call) :
  DataLogger.session_id s1 = DataLogger.session_id s2 ->
  DataLogger.entries_of s1 calls = DataLogger.entries_of s2 calls.
Proof.
  intros E. unfold DataLogger.entries_of.
  apply flat_map_ext. intros [now d n fps dur | now n fps | ];
    unfold DataLogger.eye_data_entry, DataLogger.no_face_entry; rewrite ?E; reflexivity.
Qed.

(** X13: the logger loses, duplicates and reorders nothing.  After any
    run of logging and closing calls, the rows written to the file followed
    by the buffer are the entries that were there before followed by the
    entries of the calls, in call order; once [close] has run the buffer is
    empty and the file holds all of them. *)
Theorem logged_entries_conserved (calls : list DataLogger.call) (self : DataLogger.t) :
  let self' := fold_left DataLogger.step calls self in
  DataLogger.logged self' = DataLogger.logged self ++ DataLogger.entries_of self calls /\
  DataLogger.data_buffer (DataLogger.close self') = [] /\
  DataLogger.csv_rows (DataLogger.close self') =
    DataLogger.logged self ++ DataLogger.entries_of self calls.
Proof.
  cbv zeta.
  assert (H : DataLogger.logged (fold_left DataLogger.step calls self) =
              DataLogger.logged self ++ DataLogger.entries_of self calls).
  { revert self. induction calls as [ | c calls IH]; intros self.
    - cbn. rewrite app_nil_r. reflexivity.
    - cbn [fold_left]. rewrite IH.
      destruct (logger_step_fields self c) as (E1 & _ & ->).
      rewrite (entries_of_session _ self calls E1), <- app_assoc.
      unfold DataLogger.entries_of. cbn [flat_map]. rewrite app_nil_r.
      reflexivity. }
  destruct (flush_buffer_fields (fold_left DataLogger.step calls self))
    as (_ & _ & E3 & E4).
  unfold DataLogger.close. rewrite E3, E4, H. auto.
Qed.

Lemma logging_only_counts :
  forall (calls : list DataLogger.call) (self : DataLogger.t),
    Forall (fun c => c <> DataLogger.Close) calls ->
    DataLogger.buffer_size self = 100%Z ->
    (length (DataLogger.data_buffer self) < 100)%nat ->
    let self' := fold_left DataLogger.step calls self in
    length (DataLogger.data_buffer self') =
      ((length (DataLogger.data_buffer self) + length calls) mod 100)%nat /\
    length (DataLogger.csv_rows self') =
      (length (DataLogger.csv_rows self) +
       100 * ((length (DataLogger.data_buffer self) + length calls) / 100))%nat.
Proof.
  induction calls as [ | c calls IH]; intros self Hnc Hsz Hlt; cbv zeta.
  - cbn [fold_left length]. rewrite Nat.add_0_r, Nat.mod_small, Nat.div_small by lia.
    lia.
  - inversion Hnc as [ | c' cs Hc Hrest]; subst. cbn [fold_left length].
    assert (Hstep : exists e,
               DataLogger.step self c = DataLogger.append_entry self e).
    { destruct c; [eexists; reflexivity | eexists; reflexivity | contradiction]. }
    destruct Hstep as [e ->].
    destruct (append_entry_fields self e) as (_ & Eb & El & Ed).
    rewrite Hsz in Ed. unfold len in Ed. rewrite length_app in Ed. cbn [length] in Ed.
    set (s1 := DataLogger.append_entry self e) in *.
    assert (Hrows : (length (DataLogger.csv_rows s1) + length (DataLogger.data_buffer s1)
                     = length (DataLogger.csv_rows self)
                       + length (DataLogger.data_buffer self) + 1)%nat).
    { unfold DataLogger.logged in El.
      apply (f_equal (@length _)) in El. rewrite !length_app in El.
      cbn [length] in El. lia. }
    destruct (100 <=? Z.of_nat (length (DataLogger.data_buffer self) + 1))%Z eqn:E.
    + apply Z.leb_le in E.
      assert (H99 : length (DataLogger.data_buffer self) = 99%nat) by lia.
      rewrite Ed in Hrows. cbn [length] in Hrows.
      destruct (IH s1 Hrest) as [I1 I2]; [rewrite Eb; exact Hsz | rewrite Ed; cbn; lia | ].
      rewrite I1, I2, Ed. cbn [length]. rewrite H99.
      replace (99 + S (length calls))%nat with (length calls + 1 * 100)%nat by lia.
      rewrite Nat.Div0.mod_add, Nat.div_add by lia.
      cbn [Nat.add]. split; lia.
    + apply Z.leb_gt in E.
      rewrite Ed in Hrows. rewrite length_app in Hrows. cbn [length] in Hrows.
      destruct (IH s1 Hrest) as [I1 I2];
        [rewrite Eb; exact Hsz | rewrite Ed, length_app; cbn [length]; lia | ].
      rewrite I1, I2, Ed, length_app. cbn [length].
      replace (length (DataLogger.data_buffer self) + 1 + length calls)%nat
        with (length (DataLogger.data_buffer self) + S (length calls))%nat by lia.
      split; lia.
Qed.

(** X14: rows reach the file in batches of 100.  After [n] logging calls
    on a new logger, with no [close] in between, the file holds
    100 * (n / 100) rows and the buffer the other n mod 100 entries; so the
    buffer always holds fewer than 100 entries, and up to 99 entries are
    not on disk until [close]. *)
Theorem rows_written_in_batches (sid : String.string) (calls : list DataLogger.call) :
  Forall (fun c => c <> DataLogger.Close) calls ->
  let self' := fold_left DataLogger.step calls (DataLogger.init sid) in
  length (DataLogger.csv_rows self') = (100 * (length calls / 100))%nat /\
  length (DataLogger.data_buffer self') = (length calls mod 100)%nat /\
  (length (DataLogger.data_buffer self') < 100)%nat.
Proof.
  intros Hnc.
  destruct (logging_only_counts calls (DataLogger.init sid) Hnc) as [H1 H2];
    [reflexivity | cbn; lia | ].
  cbv zeta in *. cbn [DataLogger.init DataLogger.data_buffer DataLogger.csv_rows length Nat.add] in H1, H2.
  rewrite H1, H2. repeat split.
  apply Nat.mod_upper_bound. discriminate.
Qed.

Lemma rows_written_in_batches_witness :
  let calls := repeat (DataLogger.LogNoFaceDetected String.EmptyString 1 0) 250 in
  let self' := fold_left DataLogger.step calls (DataLogger.init String.EmptyString) in
  length (DataLogger.csv_rows self') = 200%nat /\
  length (DataLogger.data_buffer self') = 50%nat /\
  (length (DataLogger.data_buffer self') < 100)%nat.
Proof.
  intros calls self'.
  assert (Hnc : Forall (fun c => c <> DataLogger.Close) calls)
    by (apply Forall_forall; intros c Hc; apply repeat_spec in Hc; subst c; discriminate).
  exact (rows_written_in_batches String.EmptyString calls Hnc).
Defined.

(** ** The application *)

Ltac app_fields :=
  cbn [EyeTrackingApp.eye_tracker EyeTrackingApp.data_logger EyeTrackingApp.frame_count EyeTrackingApp.total_blinks
       EyeTrackingApp.gesture_counts EyeTrackingApp.fps_history EyeTrackingApp.show_debug EyeTrackingApp.last_fps_time
       EyeTrackingApp.set_eye_tracker EyeTrackingApp.set_data_logger EyeTrackingApp.set_frame_count
       EyeTrackingApp.set_total_blinks EyeTrackingApp.set_gesture_counts EyeTrackingApp.set_fps_history
       EyeTrackingApp.set_show_debug EyeTrackingApp.set_last_fps_time fst snd] in *.

(** [update_fps] touches the frame-rate attributes only and keeps the
    sample list within 30. *)
Lemma update_fps_fields (self s1 : EyeTrackingApp.t) (current_time : float) :
  EyeTrackingApp.update_fps self current_time = Ok s1 ->
  EyeTrackingApp.eye_tracker s1 = EyeTrackingApp.eye_tracker self /\
  EyeTrackingApp.data_logger s1 = EyeTrackingApp.data_logger self /\
  EyeTrackingApp.frame_count s1 = EyeTrackingApp.frame_count self /\
  EyeTrackingApp.total_blinks s1 = EyeTrackingApp.total_blinks self /\
  EyeTrackingApp.gesture_counts s1 = EyeTrackingApp.gesture_counts self /\
  EyeTrackingApp.show_debug s1 = EyeTrackingApp.show_debug self /\
  ((length (EyeTrackingApp.fps_history self) <= 30)%nat ->
   (length (EyeTrackingApp.fps_history s1) <= 30)%nat).
Proof.
  unfold EyeTrackingApp.update_fps.
  destruct (EyeTrackingApp.last_fps_time self =? 0).
  - intros H. injection H as <-. app_fields. repeat split; auto.
  - destruct (current_time - EyeTrackingApp.last_fps_time self =? 0); [discriminate | ].
    cbv zeta. app_fields.
    destruct (Z.ltb 30 (len (EyeTrackingApp.fps_history self
                               ++ [1 / (current_time - EyeTrackingApp.last_fps_time self)])))
      eqn:E; intros H; injection H as <-; app_fields; repeat split; auto; intros Hle.
    + destruct (EyeTrackingApp.fps_history self) as [ | x h]; cbn [app tl length] in *; [lia | ].
      rewrite length_app. cbn [length]. lia.
    + apply Z.ltb_ge in E. unfold len in E. lia.
Qed.

Lemma count_result_fields (self s1 : EyeTrackingApp.t) (d : EyeData) (r : option EyeTrackingApp.error) :
  EyeTrackingApp.count_result self d = (r, s1) ->
  EyeTrackingApp.eye_tracker s1 = EyeTrackingApp.eye_tracker self /\
  EyeTrackingApp.data_logger s1 = EyeTrackingApp.data_logger self /\
  EyeTrackingApp.frame_count s1 = EyeTrackingApp.frame_count self /\
  EyeTrackingApp.fps_history s1 = EyeTrackingApp.fps_history self /\
  EyeTrackingApp.last_fps_time s1 = EyeTrackingApp.last_fps_time self /\
  EyeTrackingApp.total_blinks s1 =
    (if is_blinking d then EyeTrackingApp.total_blinks self + 1 else EyeTrackingApp.total_blinks self)%Z.
Proof.
  unfold EyeTrackingApp.count_result. cbv zeta.
  destruct (is_blinking d); app_fields;
    destruct (GestureType_eq_dec (gesture d) NONE);
    try (intros H; injection H as <- <-; app_fields; repeat split; reflexivity);
    destruct (EyeTrackingApp.dict_get _ _);
    intros H; injection H as <- <-; app_fields; repeat split; reflexivity.
Qed.

(** X15: a frame taken at the same clock reading as the previous one
    makes [process_frame] raise [ZeroDivisionError]: the frame counter has
    already been incremented, and the frame is neither given to the tracker
    nor logged. *)
Theorem repeated_clock_reading_raises (sum : list float -> float) (self : EyeTrackingApp.t)
    (frame : Frame) (current_time : float) (now : String.string) :
  (EyeTrackingApp.last_fps_time self =? 0) = false ->
  (current_time - EyeTrackingApp.last_fps_time self =? 0) = true ->
  EyeTrackingApp.process_frame sum self frame current_time now =
    (EyeTrackingApp.Raised (EyeTrackingApp.Exn ZeroDivisionError),
     EyeTrackingApp.set_frame_count (EyeTrackingApp.frame_count self + 1) self).
Proof.
  intros H0 Hz. unfold EyeTrackingApp.process_frame. cbv zeta.
  unfold EyeTrackingApp.update_fps. app_fields. rewrite H0, Hz. reflexivity.
Qed.

Lemma repeated_clock_reading_raises_witness :
  let frame := {| shape := (480, 640)%Z; multi_face_landmarks := [] |} in
  let s1 := snd (EyeTrackingApp.process_frame naive_sum (EyeTrackingApp.init String.EmptyString)
                   frame 1700000000.5 String.EmptyString) in
  EyeTrackingApp.process_frame naive_sum s1 frame 1700000000.5 String.EmptyString =
    (EyeTrackingApp.Raised (EyeTrackingApp.Exn ZeroDivisionError), EyeTrackingApp.set_frame_count 2 s1).
Proof.
  intros frame s1.
  exact (repeated_clock_reading_raises naive_sum s1 frame 1700000000.5
           String.EmptyString eq_refl eq_refl).
Defined.

(** X16: every call of [process_frame] that returns has logged exactly
    one entry.  Its frame number is the new frame count, which is the old one
    plus one and the count returned; its timestamp is the clock reading; its
    session id is the logger's; its frame rate is the one returned and its
    gesture duration is 0.0.  With a face, its two ratios, its six gaze
    coordinates, its blink flag and its gesture value are those of the
    returned [EyeData]; without one, the eight metrics are [None], the blink
    flag is [False] and the gesture is "none". *)
Theorem one_log_entry_per_frame (sum : list float -> float)
    (self self' : EyeTrackingApp.t)
    (frame : Frame) (current_time : float) (now : String.string)
    (eye_data : option EyeData) (fps : float) (n : Z) :
  EyeTrackingApp.process_frame sum self frame current_time now =
    (EyeTrackingApp.Returned eye_data fps n, self') ->
  n = (EyeTrackingApp.frame_count self + 1)%Z /\
  EyeTrackingApp.frame_count self' = n /\
  exists e,
    DataLogger.logged (EyeTrackingApp.data_logger self') =
      DataLogger.logged (EyeTrackingApp.data_logger self) ++ [e] /\
    LogEntry.timestamp e = now /\
    LogEntry.session_id e = DataLogger.session_id (EyeTrackingApp.data_logger self) /\
    LogEntry.frame_number e = n /\
    LogEntry.left_ear e = option_map left_ear eye_data /\
    LogEntry.right_ear e = option_map right_ear eye_data /\
    LogEntry.left_gaze_x e = option_map (fun d => fst (left_gaze d)) eye_data /\
    LogEntry.left_gaze_y e = option_map (fun d => snd (left_gaze d)) eye_data /\
    LogEntry.right_gaze_x e = option_map (fun d => fst (right_gaze d)) eye_data /\
    LogEntry.right_gaze_y e = option_map (fun d => snd (right_gaze d)) eye_data /\
    LogEntry.combined_gaze_x e = option_map (fun d => fst (combined_gaze d)) eye_data /\
    LogEntry.combined_gaze_y e = option_map (fun d => snd (combined_gaze d)) eye_data /\
    LogEntry.is_blinking e =
      match eye_data with Some d => is_blinking d | None => false end /\
    LogEntry.gesture e =
      Gesture.value match eye_data with Some d => gesture d | None => NONE end /\
    LogEntry.gesture_duration e = 0 /\
    LogEntry.fps e = fps.
Proof.
  unfold EyeTrackingApp.process_frame. cbv zeta.
  destruct (EyeTrackingApp.update_fps _ current_time) as [s1 | ex] eqn:Eu; [ | discriminate].
  destruct (update_fps_fields _ _ _ Eu) as (U1 & U2 & U3 & _).
  app_fields.
  destruct (process_frame (EyeTrackingApp.eye_tracker s1) frame current_time) as [[[d | ] | ex] tr];
    [ | | discriminate].
  - destruct (EyeTrackingApp.count_result _ d) as [[err | ] s3] eqn:Ec; [discriminate | ].
    destruct (count_result_fields _ _ _ _ Ec) as (_ & C2 & C3 & _).
    app_fields. intros H. injection H as <- <- <- <-. app_fields.
    rewrite C3, U3, C2, U2. repeat split.
    eexists. unfold DataLogger.log_eye_data.
    split; [apply append_entry_fields | ]. cbn. repeat split.
  - intros H. injection H as <- <- <- <-. app_fields.
    rewrite U3, U2. repeat split.
    eexists. unfold DataLogger.log_no_face_detected.
    split; [apply append_entry_fields | ]. cbn. repeat split.
Qed.

Lemma one_log_entry_per_frame_witness :
  let no_face := {| shape := (480, 640)%Z; multi_face_landmarks := [] |} in
  let face := {| shape := (480, 640)%Z;
                 multi_face_landmarks := [[(0.25, 0.75); (0.5, 0.5)]] |} in
  let s0 := EyeTrackingApp.init String.EmptyString in
  let s1 := snd (EyeTrackingApp.process_frame naive_sum s0 no_face 1.5 String.EmptyString) in
  let s2 := snd (EyeTrackingApp.process_frame naive_sum s1 face 1.75 String.EmptyString) in
  (EyeTrackingApp.frame_count s1 = 1%Z /\
   exists e, DataLogger.logged (EyeTrackingApp.data_logger s1) = [e] /\
             LogEntry.left_ear e = None /\ LogEntry.combined_gaze_x e = None) /\
  (EyeTrackingApp.frame_count s2 = 2%Z /\
   exists e1 e2, DataLogger.logged (EyeTrackingApp.data_logger s2) = [e1; e2] /\
                 LogEntry.frame_number e2 = 2%Z /\
                 LogEntry.left_ear e2 = Some 0 /\
                 LogEntry.combined_gaze_x e2 = Some 0.5 /\
                 LogEntry.is_blinking e2 = true).
Proof.
  intros no_face face s0 s1 s2. subst s2. subst s1. split.
  - destruct (EyeTrackingApp.process_frame naive_sum s0 no_face 1.5 String.EmptyString)
      as [[od fps n | err] s'] eqn:E; [ | vm_compute in E; discriminate E].
    destruct (one_log_entry_per_frame naive_sum s0 s' no_face 1.5 String.EmptyString
                od fps n E)
      as (Hn & Hc & e & Hl & _ & _ & _ & Hle & _ & _ & _ & _ & _ & Hcx & _).
    assert (Hod : od = None) by (vm_compute in E; congruence).
    subst od. cbn [snd option_map] in *.
    split; [rewrite Hc, Hn; reflexivity | ].
    exists e. split; [rewrite Hl; reflexivity | split; [exact Hle | exact Hcx]].
  - remember (snd (EyeTrackingApp.process_frame naive_sum s0 no_face 1.5 String.EmptyString))
      as s1 eqn:Hs1.
    destruct (EyeTrackingApp.process_frame naive_sum s1 face 1.75 String.EmptyString)
      as [[od fps n | err] s'] eqn:E;
      [ | rewrite Hs1 in E; vm_compute in E; discriminate E].
    destruct (one_log_entry_per_frame naive_sum s1 s' face 1.75 String.EmptyString
                od fps n E)
      as (Hn & Hc & e & Hl & _ & _ & Hfn & Hle & _ & _ & _ & _ & _ & Hcx & _ & Hb & _).
    cbn [snd].
    assert (Hod : exists d, od = Some d /\ left_ear d = 0 /\
                            fst (combined_gaze d) = 0.5 /\ is_blinking d = true).
    { rewrite Hs1 in E. vm_compute in E. injection E as <- _ _ _.
      eexists. repeat split. }
    destruct Hod as (d & -> & Dl & Dc & Db).
    cbn [option_map] in *.
    assert (F1 : EyeTrackingApp.frame_count s1 = 1%Z) by (rewrite Hs1; reflexivity).
    split; [rewrite Hc, Hn, F1; reflexivity | ].
    destruct (DataLogger.logged (EyeTrackingApp.data_logger s1)) as [ | e1 [ | x l]] eqn:L1;
      try (rewrite Hs1 in L1; vm_compute in L1; discriminate L1).
    exists e1, e. split; [rewrite Hl; reflexivity | ].
    rewrite Hfn, Hn, F1, Hle, Hcx, Hb, Dl, Dc, Db. repeat split.
Defined.

Lemma app_process_frame_fps_history (sum : list float -> float)
    (self : EyeTrackingApp.t) (frame : Frame) (current_time : float)
    (now : String.string) :
  (length (EyeTrackingApp.fps_history self) <= 30)%nat ->
  (length (EyeTrackingApp.fps_history
             (snd (EyeTrackingApp.process_frame sum self frame current_time now)))
   <= 30)%nat.
Proof.
  intros Hle. unfold EyeTrackingApp.process_frame. cbv zeta.
  destruct (EyeTrackingApp.update_fps _ current_time) as [s1 | ex] eqn:Eu;
    [ | app_fields; exact Hle].
  destruct (update_fps_fields _ _ _ Eu) as (_ & _ & _ & _ & _ & _ & U).
  app_fields. specialize (U Hle).
  destruct (process_frame (EyeTrackingApp.eye_tracker s1) frame current_time)
    as [[[d | ] | ex] tr]; app_fields; try exact U.
  destruct (EyeTrackingApp.count_result _ d) as [[err | ] s3] eqn:Ec;
    destruct (count_result_fields _ _ _ _ Ec) as (_ & _ & _ & C & _);
    app_fields; rewrite C; exact U.
Qed.

(** X17: the application keeps at most 30 frame-rate samples: after any
    run of frames and key presses on a new application the sample list has
    at most 30 entries. *)
Theorem fps_history_at_most_30 (sum : list float -> float) (sid : String.string)
    (calls : list EyeTrackingApp.call) :
  (length (EyeTrackingApp.fps_history
             (fold_left (EyeTrackingApp.step sum) calls (EyeTrackingApp.init sid)))
   <= 30)%nat.
Proof.
  assert (H : forall calls self,
             (length (EyeTrackingApp.fps_history self) <= 30)%nat ->
             (length (EyeTrackingApp.fps_history
                        (fold_left (EyeTrackingApp.step sum) calls self)) <= 30)%nat).
  { clear calls. induction calls as [ | c calls IH]; intros self Hle; [exact Hle | ].
    cbn [fold_left]. apply IH.
    destruct c as [frame ct now | key]; cbn [EyeTrackingApp.step].
    - apply app_process_frame_fps_history, Hle.
    - unfold EyeTrackingApp.handle_keyboard_input.
      repeat (break_if; app_fields); cbn [length]; try exact Hle; lia. }
  apply H. cbn. lia.
Qed.

(** The gestures an [EyeData] of the tracker can carry. *)
Lemma process_frame_gesture self frame t d :
  fst (process_frame self frame t) = Ok (Some d) ->
  gesture d = NONE \/ gesture d = LEFT_WINK \/
  gesture d = RIGHT_WINK \/ gesture d = DOUBLE_BLINK.
Proof.
  intros H.
  destruct (process_frame_cases self frame t)
    as [[_ E] | [(e' & E) | (face & rest & lms & le & re & lg & rg & _ & _ & _ & _ & _ & _ & E)]];
    cbv zeta in E; rewrite E in H; cbn [fst] in H; try discriminate H.
  injection H as <-. cbn [gesture].
  rewrite detect_gesture_result. cbv zeta.
  repeat break_if; auto.
Qed.

Lemma well_keyed_get d g :
  well_keyed d -> exists n, EyeTrackingApp.dict_get d (Gesture.value g) = Some n.
Proof.
  unfold well_keyed.
  destruct d as [ | [k1 v1] [ | [k2 v2] [ | [k3 v3] [ | [k4 v4] [ | [k5 v5] [ | x d]]]]]];
    cbn [map fst Gesture.members]; intros K; try discriminate K.
  injection K as -> -> -> -> ->.
  destruct g; eexists; reflexivity.
Qed.

Lemma well_keyed_set d g v :
  well_keyed d ->
  well_keyed (EyeTrackingApp.dict_set d (Gesture.value g) v) /\
  EyeTrackingApp.dict_get (EyeTrackingApp.dict_set d (Gesture.value g) v)
    (Gesture.value g) = Some v /\
  (forall g', g' <> g ->
     EyeTrackingApp.dict_get (EyeTrackingApp.dict_set d (Gesture.value g) v)
       (Gesture.value g') = EyeTrackingApp.dict_get d (Gesture.value g')).
Proof.
  unfold well_keyed.
  destruct d as [ | [k1 v1] [ | [k2 v2] [ | [k3 v3] [ | [k4 v4] [ | [k5 v5] [ | x d]]]]]];
    cbn [map fst Gesture.members]; intros K; try discriminate K.
  injection K as -> -> -> -> ->.
  destruct g; (split; [reflexivity | split; [reflexivity | ]]);
    intros g' Hne; destruct g'; try reflexivity; contradiction.
Qed.

(** One call of the application's [process_frame], counter by counter. *)
Lemma app_process_frame_counters (sum : list float -> float)
    (self : EyeTrackingApp.t) (frame : Frame) (current_time : float)
    (now : String.string) :
  well_keyed (EyeTrackingApp.gesture_counts self) ->
  let out := fst (EyeTrackingApp.process_frame sum self frame current_time now) in
  let self' := snd (EyeTrackingApp.process_frame sum self frame current_time now) in
  EyeTrackingApp.frame_count self' = (EyeTrackingApp.frame_count self + 1)%Z /\
  well_keyed (EyeTrackingApp.gesture_counts self') /\
  match out with
  | EyeTrackingApp.Returned (Some d) _ _ =>
      EyeTrackingApp.total_blinks self' =
        (EyeTrackingApp.total_blinks self + if is_blinking d then 1 else 0)%Z /\
      (gesture d = NONE \/ gesture d = LEFT_WINK \/
       gesture d = RIGHT_WINK \/ gesture d = DOUBLE_BLINK) /\
      forall g,
        EyeTrackingApp.dict_get (EyeTrackingApp.gesture_counts self') (Gesture.value g) =
          if GestureType_eq_dec (gesture d) NONE
          then EyeTrackingApp.dict_get (EyeTrackingApp.gesture_counts self) (Gesture.value g)
          else if GestureType_eq_dec g (gesture d)
               then option_map (fun n => n + 1)%Z
                      (EyeTrackingApp.dict_get (EyeTrackingApp.gesture_counts self)
                         (Gesture.value g))
               else EyeTrackingApp.dict_get (EyeTrackingApp.gesture_counts self)
                      (Gesture.value g)
  | EyeTrackingApp.Raised (EyeTrackingApp.KeyError _) => False
  | _ =>
      EyeTrackingApp.total_blinks self' = EyeTrackingApp.total_blinks self /\
      EyeTrackingApp.gesture_counts self' = EyeTrackingApp.gesture_counts self
  end.
Proof.
  intros K. unfold EyeTrackingApp.process_frame. cbv zeta.
  destruct (EyeTrackingApp.update_fps _ current_time) as [s1 | ex] eqn:Eu;
    [ | app_fields; auto].
  destruct (update_fps_fields _ _ _ Eu) as (_ & _ & U3 & U4 & U5 & _).
  app_fields.
  destruct (process_frame (EyeTrackingApp.eye_tracker s1) frame current_time)
    as [[[d | ] | ex] tr] eqn:Ep; app_fields; rewrite ?U3, ?U4, ?U5; auto.
  pose proof (process_frame_gesture (EyeTrackingApp.eye_tracker s1) frame current_time d)
    as G.
  rewrite Ep in G. specialize (G eq_refl).
  unfold EyeTrackingApp.count_result. cbv zeta.
  set (s2 := if is_blinking d then _ else _).
  assert (S2 : EyeTrackingApp.frame_count s2 = (EyeTrackingApp.frame_count self + 1)%Z /\
               EyeTrackingApp.gesture_counts s2 = EyeTrackingApp.gesture_counts self /\
               EyeTrackingApp.total_blinks s2 =
                 (EyeTrackingApp.total_blinks self + if is_blinking d then 1 else 0)%Z).
  { subst s2. destruct (is_blinking d); app_fields; rewrite U3, U4, U5;
      repeat split; lia. }
  destruct S2 as (F2 & C2 & T2). clearbody s2.
  destruct (GestureType_eq_dec (gesture d) NONE) as [En | Hn].
  - app_fields. rewrite F2, C2, T2. repeat split; auto.
    intros g. destruct (GestureType_eq_dec (gesture d) NONE); [reflexivity | contradiction].
  - rewrite C2.
    destruct (well_keyed_get _ (gesture d) K) as [n En]. rewrite En. app_fields.
    destruct (well_keyed_set _ (gesture d) (n + 1)%Z K) as (K' & Sg & So).
    rewrite F2, T2. repeat split; auto.
    intros g. destruct (GestureType_eq_dec (gesture d) NONE); [contradiction | ].
    destruct (GestureType_eq_dec g (gesture d)) as [-> | Hg].
    + rewrite Sg, En. reflexivity.
    + apply So, Hg.
Qed.

(** X18: the gesture counts stay a dictionary over the five gesture
    values.  After any run of frames and key presses on a new application
    the keys are the five values in definition order, the counts of "none"
    and of "sustained_gaze" are 0, and the next [process_frame] cannot raise
    [KeyError]. *)
Theorem gesture_counts_integrity (sum : list float -> float) (sid : String.string)
    (calls : list EyeTrackingApp.call) :
  let self := fold_left (EyeTrackingApp.step sum) calls (EyeTrackingApp.init sid) in
  map fst (EyeTrackingApp.gesture_counts self) = map Gesture.value Gesture.members /\
  EyeTrackingApp.dict_get (EyeTrackingApp.gesture_counts self) (Gesture.value NONE)
    = Some 0%Z /\
  EyeTrackingApp.dict_get (EyeTrackingApp.gesture_counts self)
    (Gesture.value SUSTAINED_GAZE) = Some 0%Z /\
  forall frame current_time now key,
    fst (EyeTrackingApp.process_frame sum self frame current_time now) <>
    EyeTrackingApp.Raised (EyeTrackingApp.KeyError key).
Proof.
  set (J := fun s : EyeTrackingApp.t =>
              well_keyed (EyeTrackingApp.gesture_counts s) /\
              EyeTrackingApp.dict_get (EyeTrackingApp.gesture_counts s)
                (Gesture.value NONE) = Some 0%Z /\
              EyeTrackingApp.dict_get (EyeTrackingApp.gesture_counts s)
                (Gesture.value SUSTAINED_GAZE) = Some 0%Z).
  assert (Hstep : forall s c, J s -> J (EyeTrackingApp.step sum s c)).
  { unfold J. intros s [frame ct now | key] (K & N & S); cbn [EyeTrackingApp.step].
    - pose proof (app_process_frame_counters sum s frame ct now K) as H.
      cbv zeta in H. destruct H as (_ & K' & H).
      destruct (fst (EyeTrackingApp.process_frame sum s frame ct now))
        as [[d | ] fps n | [ex | k]]; try contradiction;
        try (destruct H as [_ ->]; repeat split; assumption).
      destruct H as (_ & G & H). split; [exact K' | ].
      rewrite (H NONE), (H SUSTAINED_GAZE).
      destruct (GestureType_eq_dec (gesture d) NONE); [split; assumption | ].
      destruct (GestureType_eq_dec NONE (gesture d)); [congruence | ].
      destruct (GestureType_eq_dec SUSTAINED_GAZE (gesture d)) as [E | _];
        [ | split; assumption].
      destruct G as [G | [G | [G | G]]]; congruence.
    - unfold EyeTrackingApp.handle_keyboard_input.
      repeat (break_if; app_fields); repeat split; try assumption; reflexivity. }
  assert (Hrun : forall cs s, J s -> J (fold_left (EyeTrackingApp.step sum) cs s)).
  { induction cs as [ | c cs IH]; intros s Hs; [exact Hs | ].
    cbn [fold_left]. apply IH, Hstep, Hs. }
  assert (H0 : J (EyeTrackingApp.init sid)) by (repeat split).
  destruct (Hrun calls _ H0) as (K & N & S). cbv zeta.
  repeat split; try assumption.
  intros frame ct now key E.
  pose proof (app_process_frame_counters sum _ frame ct now K) as H.
  cbv zeta in H. rewrite E in H. destruct H as (_ & _ & []).
Qed.

Lemma app_run_counters (sum : list float -> float) :
  forall (inputs : list (Frame * float * String.string)) (self : EyeTrackingApp.t),
    well_keyed (EyeTrackingApp.gesture_counts self) ->
    let outs := fst (EyeTrackingApp.run sum self inputs) in
    let self' := snd (EyeTrackingApp.run sum self inputs) in
    well_keyed (EyeTrackingApp.gesture_counts self') /\
    EyeTrackingApp.frame_count self' =
      (EyeTrackingApp.frame_count self + Z.of_nat (length inputs))%Z /\
    EyeTrackingApp.total_blinks self' =
      (EyeTrackingApp.total_blinks self +
       Z.of_nat (length (filter is_blinking (EyeTrackingApp.results outs))))%Z /\
    forall g, g <> NONE ->
      EyeTrackingApp.dict_get (EyeTrackingApp.gesture_counts self') (Gesture.value g) =
        option_map
          (fun n => n + Z.of_nat (count_occ GestureType_eq_dec
                                    (map gesture (EyeTrackingApp.results outs)) g))%Z
          (EyeTrackingApp.dict_get (EyeTrackingApp.gesture_counts self) (Gesture.value g)).
Proof.
  induction inputs as [ | [[frame ct] now] rest IH]; intros self K; cbv zeta.
  - cbn [EyeTrackingApp.run fst snd EyeTrackingApp.results filter map count_occ length].
    repeat split; auto; try lia.
    intros g _. destruct (EyeTrackingApp.dict_get _ _); cbn; [f_equal; lia | reflexivity].
  - cbn [EyeTrackingApp.run].
    pose proof (app_process_frame_counters sum self frame ct now K) as H.
    cbv zeta in H.
    destruct (EyeTrackingApp.process_frame sum self frame ct now) as [out s1].
    cbn [fst snd] in H. destruct H as (F1 & K1 & H).
    specialize (IH s1 K1). cbv zeta in IH.
    destruct (EyeTrackingApp.run sum s1 rest) as [outs s2]. cbn [fst snd] in *.
    destruct IH as (K2 & F2 & T2 & C2).
    split; [exact K2 | ]. split; [rewrite F2, F1; cbn [length]; lia | ].
    destruct out as [[d | ] fps n | [ex | k]]; try contradiction;
      cbn [EyeTrackingApp.results].
    + destruct H as (T1 & G & C1). split.
      * rewrite T2, T1. cbn [filter]. destruct (is_blinking d); cbn [length]; lia.
      * intros g Hg. rewrite (C2 g Hg), (C1 g). cbn [map count_occ].
        destruct (GestureType_eq_dec (gesture d) NONE) as [E | E].
        -- destruct (GestureType_eq_dec (gesture d) g); [congruence | reflexivity].
        -- destruct (GestureType_eq_dec g (gesture d)) as [E1 | E1];
             destruct (GestureType_eq_dec (gesture d) g) as [E2 | E2];
             try congruence;
             destruct (EyeTrackingApp.dict_get _ _); cbn [option_map];
             try reflexivity; f_equal; lia.
    + destruct H as (T1 & C1). rewrite T2, T1. split; [reflexivity | ].
      intros g Hg. rewrite (C2 g Hg), C1. reflexivity.
    + destruct H as (T1 & C1). rewrite T2, T1. split; [reflexivity | ].
      intros g Hg. rewrite (C2 g Hg), C1. reflexivity.
Qed.

(** X19: what the session counters count.  After a run of [process_frame]
    calls on a new application, [frame_count] is the number of calls,
    raising ones included; [total_blinks] is the number of returned results
    with [is_blinking] set, one per frame an eye is below the threshold and
    not one per blink; and the count of each gesture other than "none" is
    the number of returned results carrying that gesture. *)
Theorem session_counters_account (sum : list float -> float) (sid : String.string)
    (inputs : list (Frame * float * String.string)) :
  let outs := fst (EyeTrackingApp.run sum (EyeTrackingApp.init sid) inputs) in
  let self' := snd (EyeTrackingApp.run sum (EyeTrackingApp.init sid) inputs) in
  EyeTrackingApp.frame_count self' = Z.of_nat (length inputs) /\
  EyeTrackingApp.total_blinks self' =
    Z.of_nat (length (filter is_blinking (EyeTrackingApp.results outs))) /\
  forall g, g <> NONE ->
    EyeTrackingApp.dict_get (EyeTrackingApp.gesture_counts self') (Gesture.value g) =
      Some (Z.of_nat (count_occ GestureType_eq_dec
                        (map gesture (EyeTrackingApp.results outs)) g)).
Proof.
  pose proof (app_run_counters sum inputs (EyeTrackingApp.init sid) eq_refl) as H.
  cbv zeta in *. destruct H as (_ & F & T & C).
  split; [rewrite F; reflexivity | split; [rewrite T; reflexivity | ]].
  intros g Hg. rewrite (C g Hg). destruct g; try contradiction; reflexivity.
Qed.

Lemma session_counters_account_witness :
  let frame := {| shape := (100, 100)%Z; multi_face_landmarks := [[(0.5, 0.5)]] |} in
  let run := EyeTrackingApp.run naive_sum (EyeTrackingApp.init String.EmptyString)
               [(frame, 1.0, String.EmptyString); (frame, 1.25, String.EmptyString)] in
  EyeTrackingApp.frame_count (snd run) = 2%Z /\
  EyeTrackingApp.total_blinks (snd run) = 2%Z /\
  EyeTrackingApp.dict_get (EyeTrackingApp.gesture_counts (snd run))
    (Gesture.value DOUBLE_BLINK) = Some 1%Z.
Proof.
  intros frame run.
  destruct (session_counters_account naive_sum String.EmptyString
              [(frame, 1.0, String.EmptyString); (frame, 1.25, String.EmptyString)])
    as (F & T & C).
  fold run in F, T, C.
  split; [exact F | split; [rewrite T; vm_compute; reflexivity | ]].
  rewrite (C DOUBLE_BLINK) by discriminate. vm_compute. reflexivity.
Defined.

Lemma mapM_length {A B : Type} (f : A -> result B) :
  forall (xs : list A) (ys : list B), mapM f xs = Ok ys -> length ys = length xs.
Proof.
  induction xs as [ | x xs IH]; intros ys; cbn [mapM].
  - intros H. injection H as <-. reflexivity.
  - destruct (f x) as [y | e]; cbn [Py.bind]; [ | discriminate].
    destruct (mapM f xs) as [ys' | e]; cbn [Py.bind]; [ | discriminate].
    intros H. injection H as <-. cbn [length]. rewrite (IH ys' eq_refl). reflexivity.
Qed.

(** X20: a face with too few landmarks is reported as closed eyes.  When
    the first face has fewer than 161 landmarks and their conversion to
    pixels succeeds, [process_frame] returns an [EyeData] with both ratios
    0.0 and the three gazes at the default (0.5, 0.5); [is_blinking] is then
    set exactly when the threshold is above zero. *)
Theorem short_face_reads_as_closed self frame t face rest :
  multi_face_landmarks frame = face :: rest ->
  (length face < 161)%nat ->
  (forall e, fst (process_frame self frame t) <> Raise e) ->
  exists d,
    fst (process_frame self frame t) = Ok (Some d) /\
    left_ear d = 0 /\ right_ear d = 0 /\
    left_gaze d = (0.5, 0.5) /\ right_gaze d = (0.5, 0.5) /\
    combined_gaze d = (0.5, 0.5) /\
    is_blinking d = (0 <? ear_threshold self) /\
    length (landmarks d) = length face.
Proof.
  intros Hf Hlen Hok.
  destruct (process_frame_cases self frame t)
    as [[E _] | [(e' & E) | (face' & rest' & lms & le & re & lg & rg & Hf' & Hm & Ele & Ere & Elg & Erg & E)]].
  - congruence.
  - cbv zeta in E. exfalso. apply (Hok e'). rewrite E. reflexivity.
  - cbv zeta in E. rewrite Hf in Hf'. injection Hf' as <- <-.
    pose proof (mapM_length _ _ _ Hm) as Hl.
    assert (Hshort : forall m, (160 <= m)%Z -> (len lms <? m + 1)%Z = true).
    { intros m Hm1. apply Z.ltb_lt. unfold len. lia. }
    assert (Le : le = 0).
    { unfold calculate_ear in Ele.
      change (Py.max LEFT_EAR_INDICES) with (Ok 160%Z) in Ele. cbn [Py.bind] in Ele.
      rewrite (Hshort 160%Z) in Ele by lia. congruence. }
    assert (Re : re = 0).
    { unfold calculate_ear in Ere.
      change (Py.max RIGHT_EAR_INDICES) with (Ok 387%Z) in Ere. cbn [Py.bind] in Ere.
      rewrite (Hshort 387%Z) in Ere by lia. congruence. }
    assert (Lg : lg = (0.5, 0.5)).
    { unfold calculate_gaze in Elg.
      change (Py.max LEFT_EYE_INDICES) with (Ok 246%Z) in Elg. cbn [Py.bind] in Elg.
      rewrite (Hshort 246%Z) in Elg by lia. congruence. }
    assert (Rg : rg = (0.5, 0.5)).
    { unfold calculate_gaze in Erg.
      change (Py.max RIGHT_EYE_INDICES) with (Ok 466%Z) in Erg. cbn [Py.bind] in Erg.
      rewrite (Hshort 466%Z) in Erg by lia. congruence. }
    subst le re lg rg. eexists. split; [rewrite E; reflexivity | ].
    cbn [left_ear right_ear left_gaze right_gaze combined_gaze is_blinking landmarks fst snd].
    repeat split; try reflexivity; try exact Hl.
    match goal with
    | |- context [push_gaze ?s ?g] =>
        destruct (push_gaze_fields s g) as (_ & _ & ->)
    end.
    rewrite orb_diag. break_if; reflexivity.
Qed.

Lemma short_face_reads_as_closed_witness :
  let frame := {| shape := (100, 100)%Z;
                  multi_face_landmarks := [[(0.5, 0.5); (0.25, 0.75)]] |} in
  exists d,
    fst (process_frame default_tracker frame 1.0) = Ok (Some d) /\
    left_ear d = 0 /\ right_ear d = 0 /\ combined_gaze d = (0.5, 0.5) /\
    is_blinking d = true.
Proof.
  intros frame.
  destruct (short_face_reads_as_closed default_tracker frame 1.0
              [(0.5, 0.5); (0.25, 0.75)] [] eq_refl)
    as (d & E & L & R & _ & _ & C & B & _).
  - cbn. lia.
  - intros e H. vm_compute in H. discriminate H.
  - exists d. repeat split; assumption.
Defined.
